(** * The request ledger of request-tracker: [bot/helpers/database.py]

    A shallow embedding of the [Database] class.  The class keeps one
    psycopg2 connection and every method runs SQL on it inside
    [try / except: rollback; raise / finally: commit].  The embedding keeps
    that shape:

    - a table is the list of its rows, a row is a record with one field per
      column, a nullable column is an [option];
    - the connection is the pair of the committed database and the working
      view of the open transaction, [commit] and [rollback] move one onto
      the other;
    - a method is a function from the connection to a result (a Python
      exception or a value) and the connection it leaves;
    - cursor rows are Python tuples, so that the sentinel idiom
      [next(cur, (None, ..., None))] is modelled as written. *)

From Stdlib Require Import ZArith List String Ascii Bool Lia Permutation.
From Stdlib Require Import Sorting.Sorted DecimalString.
From stdpp Require Import base option gmap strings.
Import ListNotations.

Local Open Scope string_scope.
Local Open Scope Z_scope.

(** ** Data model *)

(** A TIMESTAMP (and a naive [datetime]) has microsecond resolution: it is the
    number of microseconds since 1970-01-01 00:00:00. *)
Definition timestamp := Z.

(** [users (user_id BIGINT PRIMARY KEY, name TEXT, user_name TEXT)].  The
    identifiers are those the messaging platform assigns; they are taken to
    fit a BIGINT. *)
Record user_row := mk_user {
  u_user_id : Z;
  u_name : option string;
  u_user_name : option string
}.

(** [requests (user_id, is_english, message_id PRIMARY KEY, req_time,
    fulfill_message_id, fulfill_time, fulfilled_by)], columns in the order of
    [create_schema]. *)
Record request_row := mk_request {
  user_id : Z;
  is_english : bool;
  message_id : Z;
  req_time : option timestamp;
  fulfill_message_id : option Z;
  fulfill_time : option timestamp;
  fulfilled_by : option Z
}.

Record database := mk_db {
  users : list user_row;
  requests : list request_row
}.

(** The psycopg2 connection (autocommit off): what is committed, and what the
    statements of the open transaction see. *)
Record connection := mk_conn {
  committed : database;
  working : database
}.

Definition empty_db : database := mk_db [] [].
Definition connect : connection := mk_conn empty_db empty_db.

Definition commit (c : connection) : connection :=
  mk_conn (working c) (working c).

Definition rollback (c : connection) : connection :=
  mk_conn (committed c) (committed c).

(** Python values that cross the cursor boundary. *)
#[local] Set Warnings "-register-all".
Inductive pyval :=
| PyNone
| PyBool (b : bool)
| PyInt (z : Z)
| PyStr (s : string)
| PyDatetime (t : timestamp)
| PyTuple (items : list pyval)
| PyDict (items : list (string * pyval)).

Inductive exn :=
| UniqueViolation
| ForeignKeyViolation
| ValueError
| TypeError.

(** ** Methods: state and exceptions *)

Definition M (A : Type) : Type := connection -> (exn + A) * connection.

Definition ret {A} (a : A) : M A := fun c => (inr a, c).
Definition raise {A} (e : exn) : M A := fun c => (inl e, c).
Definition bind {A B} (m : M A) (k : A -> M B) : M B :=
  fun c => match m c with
           | (inl e, c1) => (inl e, c1)
           | (inr a, c1) => k a c1
           end.

Notation "'let*' x := m 'in' k" := (bind m (fun x => k))
  (at level 10, x name, m at level 100, k at level 200).

(** [try: body / except Exception as ex: rollback(); raise ex /
    finally: fin].  [fin] is [commit] in the methods that commit and the
    identity in those that only close the cursor. *)
Definition try_except_finally {A} (body : M A)
    (fin : connection -> connection) : M A :=
  fun c => match body c with
           | (inl ex, c1) => (inl ex, fin (rollback c1))
           | (inr a, c1) => (inr a, fin c1)
           end.

Definition close_only (c : connection) : connection := c.

(** [cur.execute] of a statement that writes: a failing statement changes
    nothing. *)
Definition execute_write (stmt : database -> exn + database) : M unit :=
  fun c => match stmt (working c) with
           | inl e => (inl e, c)
           | inr db => (inr tt, mk_conn (committed c) db)
           end.

(** [cur.execute] of a SELECT: the rows the cursor will yield. *)
Definition execute_query {A} (q : database -> A) : M A :=
  fun c => (inr (q (working c)), c).

(** ** SQL statements *)

Definition has_user (uid : Z) (db : database) : bool :=
  existsb (fun u => u_user_id u =? uid) (users db).

Definition has_request (mid : Z) (db : database) : bool :=
  existsb (fun r => message_id r =? mid) (requests db).

(** [INSERT INTO users (user_id, name, user_name) VALUES (%s, %s, %s)] *)
Definition sql_insert_user (u : user_row) (db : database) : exn + database :=
  if has_user (u_user_id u) db then inl UniqueViolation
  else inr (mk_db (users db ++ [u]) (requests db)).

(** [UPDATE users SET name = %s, user_name = %s WHERE (user_id = %s)] *)
Definition sql_update_user (name username : option string) (uid : Z)
    (db : database) : exn + database :=
  inr (mk_db
         (map (fun u => if u_user_id u =? uid
                        then mk_user (u_user_id u) name username else u)
              (users db))
         (requests db)).

(** [INSERT INTO requests (user_id, is_english, message_id, req_time)
    VALUES (%s, %s, %s, %s)]: the other columns take their DEFAULT NULL.  The
    primary key is checked when the row is added, the foreign key at the end
    of the statement. *)
Definition sql_insert_request (uid : Z) (eng : bool) (mid : Z)
    (now : timestamp) (db : database) : exn + database :=
  if has_request mid db then inl UniqueViolation
  else if negb (has_user uid db) then inl ForeignKeyViolation
  else inr (mk_db (users db)
              (requests db ++ [mk_request uid eng mid (Some now) None None None])).

Definition sql_update_requests (set_ : request_row -> request_row)
    (where_ : request_row -> bool) (db : database) : exn + database :=
  inr (mk_db (users db)
         (map (fun r => if where_ r then set_ r else r) (requests db))).

(** [DELETE FROM requests WHERE message_id = %s] *)
Definition sql_delete_request (mid : Z) (db : database) : exn + database :=
  inr (mk_db (users db)
         (List.filter (fun r => negb (message_id r =? mid)) (requests db))).

(** [column = %s] on a nullable column with a parameter that may be [None]:
    the comparison is true only for two equal non-null values. *)
Definition sql_eq_null (col param : option Z) : bool :=
  match col, param with
  | Some a, Some b => a =? b
  | _, _ => false
  end.

Definition set_fulfillment (fid : option Z) (ft : option timestamp)
    (fby : option Z) (r : request_row) : request_row :=
  mk_request (user_id r) (is_english r) (message_id r) (req_time r) fid ft fby.

Definition set_fulfilled_by (fby : option Z) (r : request_row) : request_row :=
  mk_request (user_id r) (is_english r) (message_id r) (req_time r)
    (fulfill_message_id r) (fulfill_time r) fby.

Definition where_user_message (uid mid : Z) (r : request_row) : bool :=
  (user_id r =? uid) && (message_id r =? mid).

(** ** The methods that write *)

Definition add_user (uid : Z) (name user_name : option string) : M unit :=
  try_except_finally
    (execute_write (sql_insert_user (mk_user uid name user_name)))
    commit.

(** [update_user] closes its cursor in [finally] and does not commit. *)
Definition update_user (uid : Z) (name username : option string) : M unit :=
  try_except_finally
    (execute_write (sql_update_user name username uid))
    close_only.

Definition delete_request (mid : Z) : M unit :=
  try_except_finally (execute_write (sql_delete_request mid)) commit.

(** [now] is the value of [datetime.now()] in the call. *)
Definition register_request (now : timestamp) (uid : Z) (eng : bool)
    (mid : Z) : M unit :=
  try_except_finally (execute_write (sql_insert_request uid eng mid now)) commit.

Definition mark_request_not_done (uid mid : Z) : M unit :=
  try_except_finally
    (execute_write
       (sql_update_requests (set_fulfillment None None None)
          (where_user_message uid mid)))
    commit.

Definition register_request_fulfillment (now : timestamp) (uid mid : Z)
    (fulfill_id fulfilled_by_ : option Z) : M unit :=
  try_except_finally
    (execute_write
       (sql_update_requests (set_fulfillment fulfill_id (Some now) fulfilled_by_)
          (where_user_message uid mid)))
    commit.

Definition update_fulfilled_by (fulfill_message_id_ fulfilled_by_ : option Z)
    : M unit :=
  try_except_finally
    (execute_write
       (sql_update_requests (set_fulfilled_by fulfilled_by_)
          (fun r => sql_eq_null (fulfill_message_id r) fulfill_message_id_)))
    commit.

(** ** Cursors *)

Definition is_none (v : pyval) : bool :=
  match v with PyNone => true | _ => false end.

(** [if v:] *)
Definition truthy (v : pyval) : bool :=
  match v with
  | PyNone => false
  | PyBool b => b
  | PyInt z => negb (z =? 0)
  | PyStr s => negb (String.eqb s "")
  | PyDatetime _ => true
  | PyTuple l => match l with [] => false | _ => true end
  | PyDict l => match l with [] => false | _ => true end
  end.

(** [next(cur, default)]: a cursor is the list of the rows it has still to
    yield. *)
Definition next_ (cur : list pyval) (default : pyval) : pyval :=
  match cur with
  | [] => default
  | row :: _ => row
  end.

Definition opt_int (o : option Z) : pyval :=
  match o with Some z => PyInt z | None => PyNone end.
Definition opt_str (o : option string) : pyval :=
  match o with Some s => PyStr s | None => PyNone end.
Definition opt_time (o : option timestamp) : pyval :=
  match o with Some t => PyDatetime t | None => PyNone end.

(** ** SQL queries *)

(** [ORDER BY]: a stable sort by insertion; [le a b] says that [a] may stand
    before [b]. *)
Fixpoint insert_by {A} (le : A -> A -> bool) (x : A) (l : list A) : list A :=
  match l with
  | [] => [x]
  | y :: l' => if le x y then x :: l else y :: insert_by le x l'
  end.

Definition order_by {A} (le : A -> A -> bool) (l : list A) : list A :=
  fold_right (insert_by le) [] l.

Definition limit_1 {A} (l : list A) : list A := firstn 1 l.

(** [GROUP BY]: the distinct keys in the order of their first row, and the
    size of each group. *)
Fixpoint group_keys {K} (eqb : K -> K -> bool) (l : list K) : list K :=
  match l with
  | [] => []
  | k :: l' => k :: List.filter (fun k' => negb (eqb k k')) (group_keys eqb l')
  end.

Definition count_key {K} (eqb : K -> K -> bool) (k : K) (l : list K) : Z :=
  Z.of_nat (length (List.filter (eqb k) l)).

Definition group_count {K} (eqb : K -> K -> bool) (l : list K) : list (K * Z) :=
  map (fun k => (k, count_key eqb k l)) (group_keys eqb l).

(** ASC puts NULL last, DESC puts it first. *)
Definition le_nulls_last (a b : option timestamp) : bool :=
  match a, b with
  | Some x, Some y => x <=? y
  | Some _, None => true
  | None, Some _ => false
  | None, None => true
  end.

(** [SELECT user_id, name, user_name FROM users WHERE user_id = %s] *)
Definition q_user_details (uid : Z) (db : database) : list pyval :=
  map (fun u => PyTuple [PyInt (u_user_id u); opt_str (u_name u);
                         opt_str (u_user_name u)])
      (List.filter (fun u => u_user_id u =? uid) (users db)).

(** [SELECT user_id FROM users WHERE user_id = %s] *)
Definition q_user (uid : Z) (db : database) : list pyval :=
  map (fun u => PyTuple [PyInt (u_user_id u)])
      (List.filter (fun u => u_user_id u =? uid) (users db)).

Definition request_tuple6 (r : request_row) : pyval :=
  PyTuple [PyInt (user_id r); PyBool (is_english r); PyInt (message_id r);
           opt_time (req_time r); opt_int (fulfill_message_id r);
           opt_time (fulfill_time r)].

Definition request_tuple7 (r : request_row) : pyval :=
  PyTuple [PyInt (user_id r); PyBool (is_english r); PyInt (message_id r);
           opt_time (req_time r); opt_int (fulfill_message_id r);
           opt_time (fulfill_time r); opt_int (fulfilled_by r)].

(** [SELECT ... FROM requests WHERE user_id = %s ORDER BY message_id DESC
    LIMIT 1] *)
Definition q_user_last_request (uid : Z) (db : database) : list pyval :=
  map request_tuple6
    (limit_1
       (order_by (fun a b => message_id b <=? message_id a)
          (List.filter (fun r => user_id r =? uid) (requests db)))).

Definition is_fulfilled_col (r : request_row) : bool :=
  match fulfill_time r with Some _ => true | None => false end.

Definition stats_key_eqb (a b : bool * bool) : bool :=
  Bool.eqb (fst a) (fst b) && Bool.eqb (snd a) (snd b).

(** [WITH new_table AS (SELECT is_english, (fulfill_time IS NOT NULL) AS
    is_fulfilled FROM ...) SELECT is_fulfilled, is_english,
    COUNT(is_english) AS cnt FROM new_table GROUP BY is_english,
    is_fulfilled], over the rows [rs] that the inner FROM / WHERE keeps. *)
Definition q_stats (rs : list request_row) : list pyval :=
  map (fun g => PyTuple [PyBool (snd (fst g)); PyBool (fst (fst g));
                         PyInt (snd g)])
      (group_count stats_key_eqb
         (map (fun r => (is_english r, is_fulfilled_col r)) rs)).

Definition q_user_stats (uid : Z) (db : database) : list pyval :=
  q_stats (List.filter (fun r => user_id r =? uid) (requests db)).

Definition q_global_stats (db : database) : list pyval :=
  q_stats (requests db).

(** [SELECT req_time FROM requests ORDER BY req_time ASC LIMIT 1] *)
Definition q_oldest_request_time (db : database) : list pyval :=
  map (fun r => PyTuple [opt_time (req_time r)])
    (limit_1
       (order_by (fun a b => le_nulls_last (req_time a) (req_time b))
          (requests db))).

(** [SELECT ... FROM requests WHERE fulfill_time is NOT NULL ORDER BY
    fulfill_time DESC LIMIT 1] *)
Definition q_latest_fulfilled (db : database) : list pyval :=
  map request_tuple7
    (limit_1
       (order_by (fun a b => le_nulls_last (fulfill_time b) (fulfill_time a))
          (List.filter is_fulfilled_col (requests db)))).

(** [SELECT COUNT(message_id) AS count, fulfilled_by FROM requests WHERE
    fulfilled_by IS NOT NULL GROUP BY fulfilled_by ORDER BY count DESC] *)
Definition fulfillers (db : database) : list Z :=
  flat_map (fun r => match fulfilled_by r with Some f => [f] | None => [] end)
           (requests db).

Definition q_leaderboard (db : database) : list pyval :=
  map (fun g => PyTuple [PyInt (snd g); PyInt (fst g)])
    (order_by (fun a b => snd b <=? snd a)
       (group_count Z.eqb (fulfillers db))).

(** [column >= %s AND column <= %s]: NULL is in no range. *)
Definition sql_between (col : option timestamp) (lo hi : timestamp) : bool :=
  match col with
  | Some t => (lo <=? t) && (t <=? hi)
  | None => false
  end.

(** [SELECT count(message_id) FROM requests WHERE req_time >= %s AND
    req_time <= %s] and the same on [fulfill_time]. *)
Definition q_count_req_time (lo hi : timestamp) (db : database) : Z :=
  Z.of_nat (length (List.filter (fun r => sql_between (req_time r) lo hi)
                      (requests db))).

Definition q_count_fulfill_time (lo hi : timestamp) (db : database) : Z :=
  Z.of_nat (length (List.filter (fun r => sql_between (fulfill_time r) lo hi)
                      (requests db))).

(** [SELECT * FROM users] and [SELECT * FROM requests], with the column names
    of [cur.description]. *)
Definition users_columns : list string := ["user_id"; "name"; "user_name"].

Definition requests_columns : list string :=
  ["user_id"; "is_english"; "message_id"; "req_time"; "fulfill_message_id";
   "fulfill_time"; "fulfilled_by"].

Definition user_values (u : user_row) : list pyval :=
  [PyInt (u_user_id u); opt_str (u_name u); opt_str (u_user_name u)].

Definition request_values (r : request_row) : list pyval :=
  [PyInt (user_id r); PyBool (is_english r); PyInt (message_id r);
   opt_time (req_time r); opt_int (fulfill_message_id r);
   opt_time (fulfill_time r); opt_int (fulfilled_by r)].

(** [SELECT * FROM {table_name}]: [cur.description] and [cur.fetchall()]. *)
Definition q_select_star (table_name : string) (db : database)
    : list string * list (list pyval) :=
  if String.eqb table_name "users"
  then (users_columns, map user_values (users db))
  else (requests_columns, map request_values (requests db)).

(** ** The methods that read *)

Definition get_user_details (uid : Z) : M pyval :=
  let* row :=
    try_except_finally
      (let* cur := execute_query (q_user_details uid) in
       match next_ cur (PyTuple [PyNone; PyNone; PyNone]) with
       | PyTuple [usr_id; name; user_name] => ret (usr_id, name, user_name)
       | _ => raise ValueError
       end)
      close_only in
  let '(usr_id, name, user_name) := row in
  ret (if negb (is_none usr_id)
       then PyDict [("user_id", usr_id); ("name", name);
                    ("user_name", user_name)]
       else PyNone).

(** [(usr_id) = next(cur, (None))]: the parentheses build no tuple and unpack
    none, [usr_id] is the row itself. *)
Definition get_user (uid : Z) : M pyval :=
  try_except_finally
    (let* cur := execute_query (q_user uid) in ret (next_ cur PyNone))
    close_only.

Definition none_tuple (n : nat) : pyval := PyTuple (repeat PyNone n).

Definition get_user_last_request (uid : Z) : M pyval :=
  try_except_finally
    (let* cur := execute_query (q_user_last_request uid) in
     match next_ cur (none_tuple 6) with
     | PyTuple [usr_id; is_english_; msg_id; req_time_; fulfill_message_id_;
                fulfill_time_] =>
         ret (PyDict [("user_id", usr_id); ("is_english", is_english_);
                      ("message_id", msg_id); ("req_time", req_time_);
                      ("fulfill_message_id", fulfill_message_id_);
                      ("fulfill_time", fulfill_time_)])
     | _ => raise ValueError
     end)
    close_only.

Definition get_latest_fulfilled : M pyval :=
  let* row :=
    try_except_finally
      (let* cur := execute_query q_latest_fulfilled in
       match next_ cur (none_tuple 7) with
       | PyTuple [usr_id; is_english_; msg_id; req_time_; fulfill_message_id_;
                  fulfill_time_; fulfilled_by_] =>
           ret [("user_id", usr_id); ("is_english", is_english_);
                ("message_id", msg_id); ("req_time", req_time_);
                ("fulfill_message_id", fulfill_message_id_);
                ("fulfill_time", fulfill_time_);
                ("fulfilled_by", fulfilled_by_)]
       | _ => raise ValueError
       end)
      close_only in
  ret (PyDict row).

Definition get_oldest_request_time : M pyval :=
  try_except_finally
    (let* cur := execute_query q_oldest_request_time in ret (next_ cur PyNone))
    close_only.

(** The [while True] loop of [get_user_stats] and [get_global_stats] (the
    same text in both).  An exhausted cursor yields the sentinel
    [(None, None, None)], which breaks the loop. *)
Definition stats := (pyval * pyval * pyval * pyval)%type.

Fixpoint stats_loop (cur : list pyval) (acc : stats) : exn + stats :=
  match cur with
  | [] => inr acc
  | row :: rest =>
      match row with
      | PyTuple [is_fulfilled; is_english_; req_count] =>
          if is_none is_fulfilled || is_none is_english_ || is_none req_count
          then inr acc
          else
            let '(english_fulfilled, non_english_fulfilled,
                  english_not_fulfilled, non_english_not_fulfilled) := acc in
            stats_loop rest
              (if truthy is_fulfilled then
                 if truthy is_english_
                 then (req_count, non_english_fulfilled,
                       english_not_fulfilled, non_english_not_fulfilled)
                 else (english_fulfilled, req_count,
                       english_not_fulfilled, non_english_not_fulfilled)
               else
                 if truthy is_english_
                 then (english_fulfilled, non_english_fulfilled,
                       req_count, non_english_not_fulfilled)
                 else (english_fulfilled, non_english_fulfilled,
                       english_not_fulfilled, req_count))
      | _ => inl ValueError
      end
  end.

Definition stats_tuple (s : stats) : pyval :=
  let '(a, b, c, d) := s in PyTuple [a; b; c; d].

Definition stats_body (q : database -> list pyval) : M pyval :=
  let* cur := execute_query q in
  match stats_loop cur (PyInt 0, PyInt 0, PyInt 0, PyInt 0) with
  | inl ex => raise ex
  | inr s => ret (stats_tuple s)
  end.

Definition get_user_stats (uid : Z) : M pyval :=
  try_except_finally (stats_body (q_user_stats uid)) close_only.

Definition get_global_stats : M pyval :=
  try_except_finally (stats_body q_global_stats) close_only.

(** [cur.fetchall()]: the list of the rows. *)
Definition get_leaderboard : M (list pyval) :=
  try_except_finally (execute_query q_leaderboard) commit.

(** [timedelta(days=1)] *)
Definition one_day : Z := 86400 * 1000000.

Section Weekly.
(** The week labels are the keys of the dict that is returned. *)
Context `{Countable K}.

Fixpoint weekly_loop (weeks : list (timestamp * timestamp * K))
    (results : gmap K (Z * Z)) : M (gmap K (Z * Z)) :=
  match weeks with
  | [] => ret results
  | (week_start, week_end, week_number) :: rest =>
      let week_end := week_end + one_day in
      let* requests_count :=
        execute_query (q_count_req_time week_start week_end) in
      let* fulfill_count :=
        execute_query (q_count_fulfill_time week_start week_end) in
      weekly_loop rest
        (<[week_number := (requests_count, fulfill_count)]> results)
  end.

Definition get_weekly_stats (weeks : list (timestamp * timestamp * K))
    : M (gmap K (Z * Z)) :=
  try_except_finally (weekly_loop weeks ∅) commit.
End Weekly.

(** ** The backup *)

(** Days since 1970-01-01 of a date of the proleptic Gregorian calendar, and
    back: what [datetime] does between its fields and a point in time. *)
Definition days_from_civil (y m d : Z) : Z :=
  let y := if m <=? 2 then y - 1 else y in
  let era := y / 400 in
  let yoe := y - era * 400 in
  let doy := (153 * (if 2 <? m then m - 3 else m + 9) + 2) / 5 + d - 1 in
  let doe := yoe * 365 + yoe / 4 - yoe / 100 + doy in
  era * 146097 + doe - 719468.

Definition civil_from_days (z : Z) : Z * Z * Z :=
  let z := z + 719468 in
  let era := z / 146097 in
  let doe := z - era * 146097 in
  let yoe := (doe - doe / 1460 + doe / 36524 - doe / 146096) / 365 in
  let y := yoe + era * 400 in
  let doy := doe - (365 * yoe + yoe / 4 - yoe / 100) in
  let mp := (5 * doy + 2) / 153 in
  let d := doy - (153 * mp + 2) / 5 + 1 in
  let m := if mp <? 10 then mp + 3 else mp - 9 in
  (if m <=? 2 then y + 1 else y, m, d).

(** [datetime(year, month, day, hour, minute, second, microsecond)] *)
Definition datetime (year month day hour minute second microsecond : Z)
    : timestamp :=
  days_from_civil year month day * one_day
  + ((hour * 60 + minute) * 60 + second) * 1000000 + microsecond.

Definition dt_date (t : timestamp) : Z * Z * Z := civil_from_days (t / one_day).
Definition dt_hour (t : timestamp) : Z := t mod one_day / 3600000000.
Definition dt_minute (t : timestamp) : Z := t mod one_day / 60000000 mod 60.
Definition dt_second (t : timestamp) : Z := t mod one_day / 1000000 mod 60.
Definition dt_microsecond (t : timestamp) : Z := t mod 1000000.

Definition dec (n : Z) : string := NilZero.string_of_int (Z.to_int n).

Fixpoint zeros (n : nat) : string :=
  match n with O => "" | S n' => String "0" (zeros n') end.

(** A number on at least [width] digits, as [%m], [%d], [%H], [%M], [%S] (two
    digits) and [%Y] (four) print it. *)
Definition pad (width : nat) (n : Z) : string :=
  let s := dec n in zeros (width - String.length s) +:+ s.

(** [f"{val:'%Y-%m-%d %H:%M:%S'}"]: the quotes are part of the format. *)
Definition strftime_sql (t : timestamp) : string :=
  let '(y, m, d) := dt_date t in
  "'" +:+ pad 4 y +:+ "-" +:+ pad 2 m +:+ "-" +:+ pad 2 d +:+ " "
  +:+ pad 2 (dt_hour t) +:+ ":" +:+ pad 2 (dt_minute t) +:+ ":"
  +:+ pad 2 (dt_second t) +:+ "'".

(** [f"database_backup_{cur_time:%d-%m-%Y-%H:%M:%S}.zip"] *)
Definition zip_file_name (cur_time : timestamp) : string :=
  let '(y, m, d) := dt_date cur_time in
  "database_backup_" +:+ pad 2 d +:+ "-" +:+ pad 2 m +:+ "-" +:+ pad 4 y
  +:+ "-" +:+ pad 2 (dt_hour cur_time) +:+ ":" +:+ pad 2 (dt_minute cur_time)
  +:+ ":" +:+ pad 2 (dt_second cur_time) +:+ ".zip".

(** [repr] of a [str].  The characters of a [string] stand for the code
    points 0 to 255. *)
Definition double_quote : ascii := "034"%char.
Definition single_quote : ascii := "039"%char.
Definition backslash : ascii := "092"%char.

Fixpoint contains (ch : ascii) (s : string) : bool :=
  match s with
  | EmptyString => false
  | String c s' => Ascii.eqb c ch || contains ch s'
  end.

Definition hex_digit (n : N) : ascii :=
  if (n <? 10)%N then ascii_of_N (48 + n) else ascii_of_N (87 + n).

Definition hex_escape (n : N) : string :=
  String backslash
    (String "x" (String (hex_digit (n / 16)) (String (hex_digit (n mod 16)) ""))).

Definition printable (n : N) : bool :=
  ((32 <=? n) && (n <? 127) || (161 <=? n) && negb (n =? 173))%N.

Definition repr_char (quote ch : ascii) : string :=
  let n := N_of_ascii ch in
  if Ascii.eqb ch quote || Ascii.eqb ch backslash
  then String backslash (String ch "")
  else if (n =? 9)%N then String backslash "t"
  else if (n =? 10)%N then String backslash "n"
  else if (n =? 13)%N then String backslash "r"
  else if printable n then String ch ""
  else hex_escape n.

Fixpoint repr_chars (quote : ascii) (s : string) : string :=
  match s with
  | EmptyString => ""
  | String ch s' => repr_char quote ch +:+ repr_chars quote s'
  end.

Definition repr_str (s : string) : string :=
  let quote :=
    if contains single_quote s && negb (contains double_quote s)
    then double_quote else single_quote in
  String quote (repr_chars quote s +:+ String quote "").

Definition repr_datetime (t : timestamp) : string :=
  let '(y, m, d) := dt_date t in
  "datetime.datetime(" +:+ dec y +:+ ", " +:+ dec m +:+ ", " +:+ dec d
  +:+ ", " +:+ dec (dt_hour t) +:+ ", " +:+ dec (dt_minute t)
  +:+ (if negb (dt_microsecond t =? 0)
       then ", " +:+ dec (dt_second t) +:+ ", " +:+ dec (dt_microsecond t)
       else if negb (dt_second t =? 0) then ", " +:+ dec (dt_second t)
       else "")
  +:+ ")".

Fixpoint repr (val : pyval) : string :=
  match val with
  | PyNone => "None"
  | PyBool b => if b then "True" else "False"
  | PyInt z => dec z
  | PyStr s => repr_str s
  | PyDatetime t => repr_datetime t
  | PyTuple items =>
      match items with
      | [x] => "(" +:+ repr x +:+ ",)"
      | _ => "(" +:+ String.concat ", " (map repr items) +:+ ")"
      end
  | PyDict items =>
      "{" +:+ String.concat ", "
                (map (fun kv => let '(k, v) := kv in
                                repr_str k +:+ ": " +:+ repr v) items)
      +:+ "}"
  end.

Definition format_data (val : pyval) : string :=
  match val with
  | PyNone => "NULL"
  | PyDatetime t => strftime_sql t
  | _ => repr val
  end.

Definition newline : string := String "010"%char "".

Definition insert_prefix (table_name : string) (columns : list string)
    : string :=
  "INSERT INTO " +:+ table_name +:+ " (" +:+ String.concat ", " columns
  +:+ ") VALUES".

(** The text written to [{table_name}.sql]: one line per row. *)
Definition sql_file (table_name : string) (columns : list string)
    (table_data : list (list pyval)) : string :=
  String.concat ""
    (map (fun row =>
            insert_prefix table_name columns +:+ " ("
            +:+ String.concat ", " (map format_data row) +:+ ");" +:+ newline)
         table_data).

Definition table_names : list string := ["users"; "requests"].

Fixpoint backup_loop (tables : list string) : M (list (string * string)) :=
  match tables with
  | [] => ret []
  | table_name :: rest =>
      let* res := execute_query (q_select_star table_name) in
      let '(columns, table_data) := res in
      let* members := backup_loop rest in
      ret ((table_name +:+ ".sql", sql_file table_name columns table_data)
           :: members)
  end.

(** The name of the archive and its members, each with the text it holds.
    [cur_time] is [datetime.now(tz=pytz.timezone('Asia/Kolkata'))]. *)
Definition get_backup_data (cur_time : timestamp)
    : M (string * list (string * string)) :=
  try_except_finally
    (let* members := backup_loop table_names in
     ret (zip_file_name cur_time, members))
    commit.


(** ** Sequences of calls *)

(** A call of one of the methods that write, with its arguments. *)
Inductive call :=
| AddUser (uid : Z) (name user_name : option string)
| UpdateUser (uid : Z) (name username : option string)
| RegisterRequest (uid : Z) (eng : bool) (mid : Z)
| RegisterRequestFulfillment (uid mid : Z) (fulfill_id fulfilled_by_ : option Z)
| MarkRequestNotDone (uid mid : Z)
| UpdateFulfilledBy (fulfill_message_id_ fulfilled_by_ : option Z)
| DeleteRequest (mid : Z).

(** [now] is what the clock shows during the call. *)
Definition do_call (now : timestamp) (k : call) : M unit :=
  match k with
  | AddUser uid name user_name => add_user uid name user_name
  | UpdateUser uid name username => update_user uid name username
  | RegisterRequest uid eng mid => register_request now uid eng mid
  | RegisterRequestFulfillment uid mid fid fby =>
      register_request_fulfillment now uid mid fid fby
  | MarkRequestNotDone uid mid => mark_request_not_done uid mid
  | UpdateFulfilledBy fmid fby => update_fulfilled_by fmid fby
  | DeleteRequest mid => delete_request mid
  end.

(** The caller goes on after an exception: the connection stays. *)
Definition run (trace : list (timestamp * call)) (c : connection)
    : connection :=
  fold_left (fun c e => snd (do_call (fst e) (snd e) c)) trace c.

(** Pending or fulfilled: the three fulfillment columns are null together. *)
Definition fulfillment_group_ok (r : request_row) : Prop :=
  (fulfill_message_id r = None /\ fulfill_time r = None
   /\ fulfilled_by r = None)
  \/ (is_Some (fulfill_message_id r) /\ is_Some (fulfill_time r)
      /\ is_Some (fulfilled_by r)).

(** [register_request_fulfillment] is given a [fulfill_id] and a
    [fulfilled_by]. *)
Definition fulfillment_given (k : call) : Prop :=
  match k with
  | RegisterRequestFulfillment _ _ fid fby => is_Some fid /\ is_Some fby
  | _ => True
  end.

(** [update_fulfilled_by] is given a [fulfilled_by]. *)
Definition fulfiller_given (k : call) : Prop :=
  match k with
  | UpdateFulfilledBy _ fby => is_Some fby
  | _ => True
  end.

(** [fulfill_time], when present, is not before [req_time]. *)
Definition fulfilled_after_request (r : request_row) : Prop :=
  forall ft, fulfill_time r = Some ft ->
    exists rt, req_time r = Some rt /\ rt <= ft.

(** A request whose times are known and bounded by [bound]; the invariant
    behind [fulfilled_after_request]. *)
Definition times_ok (bound : timestamp) (r : request_row) : Prop :=
  exists rt, req_time r = Some rt /\ rt <= bound
             /\ forall ft, fulfill_time r = Some ft -> rt <= ft.

(** Scenarios A and B of the specification, then a correction of the
    fulfiller. *)
Definition scenario_fulfilled : list (timestamp * call) :=
  [(10, AddUser 42 (Some "Ann") None);
   (20, RegisterRequest 42 true 1001);
   (30, RegisterRequestFulfillment 42 1001 (Some 2002) (Some 7));
   (40, UpdateFulfilledBy (Some 2002) (Some 8))].


(** The row is the one that [fulfill_message_id = %s] selects. *)
Definition acknowledged_by (fmid : option Z) (r : request_row) : Prop :=
  exists x, fmid = Some x /\ fulfill_message_id r = Some x.

(** Two rows that differ in [fulfilled_by] at most. *)
Definition same_but_fulfilled_by (r r' : request_row) : Prop :=
  user_id r' = user_id r /\ is_english r' = is_english r
  /\ message_id r' = message_id r /\ req_time r' = req_time r
  /\ fulfill_message_id r' = fulfill_message_id r
  /\ fulfill_time r' = fulfill_time r.

(** What [get_user_last_request] and [get_latest_fulfilled] return when the
    cursor yields nothing: the dict built from the sentinel. *)
Definition no_last_request : pyval :=
  PyDict [("user_id", PyNone); ("is_english", PyNone); ("message_id", PyNone);
          ("req_time", PyNone); ("fulfill_message_id", PyNone);
          ("fulfill_time", PyNone)].

Definition no_latest_fulfilled : pyval :=
  PyDict [("user_id", PyNone); ("is_english", PyNone); ("message_id", PyNone);
          ("req_time", PyNone); ("fulfill_message_id", PyNone);
          ("fulfill_time", PyNone); ("fulfilled_by", PyNone)].

(** A profile is changed and not yet committed. *)
Definition scenario_uncommitted : connection :=
  run [(10, AddUser 1 (Some "a") (Some "b"));
       (20, UpdateUser 1 (Some "c") (Some "d"))] connect.

(** The number of the rows of [rs] with the given [is_english] and the given
    state, fulfilled or pending. *)
Definition bucket (eng fulfilled : bool) (rs : list request_row) : Z :=
  Z.of_nat
    (length
       (List.filter
          (fun r => Bool.eqb eng (is_english r)
                    && Bool.eqb fulfilled (is_fulfilled_col r))
          rs)).

(** The assignment that one turn of the loop of [stats_loop] makes, and the
    variable it makes it to. *)
Definition put_stat (key : bool * bool) (v : pyval) (acc : stats) : stats :=
  let '(a, b, c, d) := acc in
  match key with
  | (true, true) => (v, b, c, d)
  | (false, true) => (a, v, c, d)
  | (true, false) => (a, b, v, d)
  | (false, false) => (a, b, c, v)
  end.

Definition get_stat (key : bool * bool) (acc : stats) : pyval :=
  let '(a, b, c, d) := acc in
  match key with
  | (true, true) => a
  | (false, true) => b
  | (true, false) => c
  | (false, false) => d
  end.

(** The number of the requests that [fulfiller] has fulfilled. *)
Definition fulfilled_count (fulfiller : Z) (db : database) : Z :=
  Z.of_nat
    (length
       (List.filter (fun r => sql_eq_null (fulfilled_by r) (Some fulfiller))
          (requests db))).

(** The row of the leaderboard for a fulfiller and a count. *)
Definition leaderboard_row (p : Z * Z) : pyval :=
  PyTuple [PyInt (snd p); PyInt (fst p)].

(** What [get_weekly_stats] stores for one week: the requests with a
    [req_time], and those with a [fulfill_time], from [week_start] to
    [week_end + 1 day], both ends included. *)
Definition week_counts (db : database) (week_start week_end : timestamp)
    : Z * Z :=
  (q_count_req_time week_start (week_end + one_day) db,
   q_count_fulfill_time week_start (week_end + one_day) db).

(** Scenario E of the specification: one request, opened on 2024-01-03 and
    fulfilled on 2024-01-10, and the week from 2024-01-01 to 2024-01-07. *)
Definition scenario_week : connection :=
  run [(datetime 2024 1 1 9 0 0 0, AddUser 42 (Some "Ann") None);
       (datetime 2024 1 3 12 0 0 0, RegisterRequest 42 true 1001);
       (datetime 2024 1 10 9 30 0 0,
        RegisterRequestFulfillment 42 1001 (Some 2002) (Some 7))]
      connect.

Definition week_1 : timestamp * timestamp * string :=
  (datetime 2024 1 1 0 0 0 0, datetime 2024 1 7 0 0 0 0, "W1").

Definition week_2 : timestamp * timestamp * string :=
  (datetime 2024 1 8 0 0 0 0, datetime 2024 1 14 0 0 0 0, "W2").

(** One request, opened at 2024-01-08 00:00:00, the first instant after the
    last day of [week_1]. *)
Definition scenario_midnight : connection :=
  run [(datetime 2024 1 1 9 0 0 0, AddUser 42 (Some "Ann") None);
       (datetime 2024 1 8 0 0 0 0, RegisterRequest 42 true 1001)]
      connect.

(** [t] is in the range from [lo] to [hi], [hi] excluded. *)
Definition in_half_open (lo hi : timestamp) (col : option timestamp) : bool :=
  match col with
  | Some t => (lo <=? t) && (t <? hi)
  | None => false
  end.

(** One user and one request, opened at 2024-01-03 10:00:05 and
    [microsecond] microseconds. *)
Definition dataset (microsecond : Z) : database :=
  mk_db [mk_user 42 (Some "Ann") None]
        [mk_request 42 true 1001 (Some (datetime 2024 1 3 10 0 5 microsecond))
           None None None].

(** The members of the archive that [get_backup_data] writes for [db]. *)
Definition backup_of (db : database) : exn + list (string * string) :=
  match fst (get_backup_data 0 (mk_conn db db)) with
  | inl ex => inl ex
  | inr (_, members) => inr members
  end.

(** The statements written for [dataset]. *)
Definition dataset_backup : list (string * string) :=
  [("users.sql",
    "INSERT INTO users (user_id, name, user_name) VALUES (42, 'Ann', NULL);"
    +:+ newline);
   ("requests.sql",
    "INSERT INTO requests (user_id, is_english, message_id, req_time, fulfill_message_id, fulfill_time, fulfilled_by) VALUES (42, True, 1001, '2024-01-03 10:00:05', NULL, NULL, NULL);"
    +:+ newline)].


(** ** The other methods that read *)

(** A row of six columns, as the loops keep it in their list. *)
Definition row6 : Type := pyval * pyval * pyval * pyval * pyval * pyval.
Definition row4 : Type := pyval * pyval * pyval * pyval.

(** [SELECT user_id, is_english, message_id, req_time, fulfill_message_id,
    fulfill_time FROM requests WHERE user_id = %s AND message_id = %s] *)
Definition q_request (uid mid : Z) (db : database) : list pyval :=
  map request_tuple6 (List.filter (where_user_message uid mid) (requests db)).

Definition get_request (uid mid : Z) : M pyval :=
  let* row :=
    try_except_finally
      (let* cur := execute_query (q_request uid mid) in
       match next_ cur (none_tuple 6) with
       | PyTuple [usr_id; is_english_; msg_id; req_time_; fulfill_message_id_;
                  fulfill_time_] =>
           ret (usr_id, is_english_, msg_id, req_time_, fulfill_message_id_,
                fulfill_time_)
       | _ => raise ValueError
       end)
      close_only in
  let '(usr_id, is_english_, msg_id, req_time_, fulfill_message_id_,
        fulfill_time_) := row : row6 in
  ret (PyTuple [usr_id; is_english_; msg_id; req_time_; fulfill_message_id_;
                fulfill_time_]).

(** The [while True] loop of [get_requests] and [get_user_requests]: a row
    whose [usr_id] is [None], as the sentinel is, ends it. *)
Fixpoint fetch_loop6 (cur : list pyval) (acc : list row6)
    : exn + list row6 :=
  match cur with
  | [] => inr acc
  | row :: rest =>
      match row with
      | PyTuple [usr_id; is_english_; msg_id; req_time_; fulfill_message_id_;
                 fulfill_time_] =>
          if is_none usr_id then inr acc
          else fetch_loop6 rest
                 (acc ++ [(usr_id, is_english_, msg_id, req_time_,
                           fulfill_message_id_, fulfill_time_)])
      | _ => inl ValueError
      end
  end.

(** The dict that the list comprehension builds of [req]. *)
Definition request_dict6 (req : row6) : pyval :=
  let '(r0, r1, r2, r3, r4, r5) := req in
  PyDict [("user_id", r0); ("is_english", r1); ("message_id", r2);
          ("req_time", r3); ("fulfill_message_id", r4); ("fulfill_time", r5)].

Definition fetch_body6 (q : database -> list pyval) : M (list row6) :=
  let* cur := execute_query q in
  match fetch_loop6 cur [] with
  | inl ex => raise ex
  | inr rows => ret rows
  end.

(** [SELECT ... FROM requests].  The query has no ORDER BY: the order of the
    rows is the order of the list here and any order in the database, so
    what is stated of the result is stated up to the order. *)
Definition q_requests (db : database) : list pyval :=
  map request_tuple6 (requests db).

Definition get_requests : M (list pyval) :=
  let* rows := try_except_finally (fetch_body6 q_requests) close_only in
  ret (map request_dict6 rows).

(** [SELECT ... FROM requests WHERE user_id = %s ORDER BY message_id ASC] *)
Definition q_user_requests (uid : Z) (db : database) : list pyval :=
  map request_tuple6
    (order_by (fun a b => message_id a <=? message_id b)
       (List.filter (fun r => user_id r =? uid) (requests db))).

Definition get_user_requests (uid : Z) : M (list pyval) :=
  let* rows :=
    try_except_finally (fetch_body6 (q_user_requests uid)) close_only in
  ret (map request_dict6 rows).

Definition request_tuple4 (r : request_row) : pyval :=
  PyTuple [PyInt (user_id r); PyBool (is_english r); PyInt (message_id r);
           opt_time (req_time r)].

(** [SELECT user_id, is_english, message_id, req_time FROM requests WHERE
    fulfill_time is NULL ORDER BY req_time] *)
Definition q_pending_requests (db : database) : list pyval :=
  map request_tuple4
    (order_by (fun a b => le_nulls_last (req_time a) (req_time b))
       (List.filter (fun r => negb (is_fulfilled_col r)) (requests db))).

Fixpoint fetch_loop4 (cur : list pyval) (acc : list row4)
    : exn + list row4 :=
  match cur with
  | [] => inr acc
  | row :: rest =>
      match row with
      | PyTuple [usr_id; is_english_; msg_id; req_time_] =>
          if is_none usr_id then inr acc
          else fetch_loop4 rest
                 (acc ++ [(usr_id, is_english_, msg_id, req_time_)])
      | _ => inl ValueError
      end
  end.

Definition request_dict4 (req : row4) : pyval :=
  let '(r0, r1, r2, r3) := req in
  PyDict [("user_id", r0); ("is_english", r1); ("message_id", r2);
          ("req_time", r3)].

Definition get_pending_requests : M (list pyval) :=
  let* rows :=
    try_except_finally
      (let* cur := execute_query q_pending_requests in
       match fetch_loop4 cur [] with
       | inl ex => raise ex
       | inr rows => ret rows
       end)
      close_only in
  ret (map request_dict4 rows).

(** [SELECT user_id, name, user_name FROM users]: [cur.fetchall()], the key
    column apart. *)
Definition q_users (db : database) : list (Z * (pyval * pyval)) :=
  map (fun u => (u_user_id u, (opt_str (u_name u), opt_str (u_user_name u))))
      (users db).

Definition user_dict (name user_name : pyval) : pyval :=
  PyDict [("name", name); ("user_name", user_name)].

(** The dict comprehension [{result[0]: {...} for result in results}]: a key
    met again takes the later value. *)
Definition get_users : M (gmap Z pyval) :=
  let* results := try_except_finally (execute_query q_users) close_only in
  ret (fold_left
         (fun d result =>
            <[fst result := user_dict (fst (snd result)) (snd (snd result))]> d)
         results ∅).

(** ** [bot/helpers/utils/telegram.py]: what it reads of a message *)

(** Of a message, [has_link] reads the entities: a list, or [None]; of an
    entity, its type. *)
Record message_entity := mk_entity { entity_type : string }.

Record message := mk_message {
  entities : option (list message_entity)
}.

(** [entity.type not in ["url", "text_link"]] *)
Definition not_a_link (entity : message_entity) : bool :=
  negb (existsb (String.eqb (entity_type entity)) ["url"; "text_link"]).

(** The [for] loop of [has_link]: it goes through all the entities. *)
Fixpoint has_link_loop (es : list message_entity) (return_value : bool)
    : bool :=
  match es with
  | [] => return_value
  | entity :: rest =>
      if not_a_link entity then has_link_loop rest return_value
      else has_link_loop rest true
  end.

Definition has_link (m : message) : bool :=
  match entities m with
  | None => false
  | Some es => has_link_loop es false
  end.

(** ** Properties of a database and of a connection *)

Definition user_ids (db : database) : list Z := map u_user_id (users db).
Definition message_ids (db : database) : list Z := map message_id (requests db).

(** The two primary keys. *)
Definition keys_unique (db : database) : Prop :=
  List.NoDup (user_ids db) /\ List.NoDup (message_ids db).

(** The foreign key of [requests]. *)
Definition references_ok (db : database) : Prop :=
  Forall (fun r => In (user_id r) (user_ids db)) (requests db).

(** What the calls keep of a connection: the open transaction holds no change
    of a request and no new user, and the working view obeys the keys. *)
Definition well_formed (c : connection) : Prop :=
  requests (working c) = requests (committed c)
  /\ user_ids (working c) = user_ids (committed c)
  /\ keys_unique (working c)
  /\ references_ok (working c).

(** A request is pending. *)
Definition pending (r : request_row) : Prop :=
  fulfill_message_id r = None /\ fulfill_time r = None /\ fulfilled_by r = None.

(** Two rows that differ in the three fulfillment columns at most. *)
Definition same_request (r r' : request_row) : Prop :=
  user_id r' = user_id r /\ is_english r' = is_english r
  /\ message_id r' = message_id r /\ req_time r' = req_time r.

(** The row is the one that [user_id = %s AND message_id = %s] selects. *)
Definition is_request (uid mid : Z) (r : request_row) : Prop :=
  user_id r = uid /\ message_id r = mid.

(** What [get_user_details] returns for a user. *)
Definition user_details (uid : Z) (name user_name : option string) : pyval :=
  PyDict [("user_id", PyInt uid); ("name", opt_str name);
          ("user_name", opt_str user_name)].

(** The dict of a request in [get_requests], [get_user_requests] and
    [get_user_last_request]; in [get_pending_requests]; in
    [get_latest_fulfilled]. *)
Definition request_dict (r : request_row) : pyval :=
  PyDict [("user_id", PyInt (user_id r)); ("is_english", PyBool (is_english r));
          ("message_id", PyInt (message_id r));
          ("req_time", opt_time (req_time r));
          ("fulfill_message_id", opt_int (fulfill_message_id r));
          ("fulfill_time", opt_time (fulfill_time r))].

Definition pending_dict (r : request_row) : pyval :=
  PyDict [("user_id", PyInt (user_id r)); ("is_english", PyBool (is_english r));
          ("message_id", PyInt (message_id r));
          ("req_time", opt_time (req_time r))].

Definition fulfilled_dict (r : request_row) : pyval :=
  PyDict [("user_id", PyInt (user_id r)); ("is_english", PyBool (is_english r));
          ("message_id", PyInt (message_id r));
          ("req_time", opt_time (req_time r));
          ("fulfill_message_id", opt_int (fulfill_message_id r));
          ("fulfill_time", opt_time (fulfill_time r));
          ("fulfilled_by", opt_int (fulfilled_by r))].

Definition request_row6 (r : request_row) : row6 :=
  (PyInt (user_id r), PyBool (is_english r), PyInt (message_id r),
   opt_time (req_time r), opt_int (fulfill_message_id r),
   opt_time (fulfill_time r)).

Definition request_row4 (r : request_row) : row4 :=
  (PyInt (user_id r), PyBool (is_english r), PyInt (message_id r),
   opt_time (req_time r)).

(** A character that [repr] writes as it is between single quotes: printable,
    and neither the apostrophe nor the backslash. *)
Definition plain_char (ch : ascii) : bool :=
  printable (N_of_ascii ch) && negb (Ascii.eqb ch single_quote)
  && negb (Ascii.eqb ch backslash).

Fixpoint plain_text (s : string) : bool :=
  match s with
  | EmptyString => true
  | String ch s' => plain_char ch && plain_text s'
  end.

(** The entity is a link for [has_link]. *)
Definition is_link (entity : message_entity) : Prop :=
  entity_type entity = "url" \/ entity_type entity = "text_link".

Definition sum_counts (pairs : list (Z * Z)) : Z :=
  fold_right Z.add 0 (map snd pairs).

(** The request has a fulfiller. *)
Definition has_fulfiller (r : request_row) : bool :=
  match fulfilled_by r with Some _ => true | None => false end.
(** * Theorems *)

(** ** The connection after a method that writes *)

Section WriteMethod.
Variable P : database -> Prop.
Variable stmt : database -> exn + database.
Variable c : connection.
Hypothesis Hcommitted : P (committed c).
Hypothesis Hworking : P (working c).
Hypothesis Hstmt : forall db', stmt (working c) = inr db' -> P db'.

Lemma write_commit_views :
  let c' := snd (try_except_finally (execute_write stmt) commit c) in
  P (committed c') /\ P (working c').
Proof using Hcommitted Hstmt.
  unfold try_except_finally, execute_write.
  destruct (stmt (working c)) as [e | db'] eqn:E; cbn; auto.
Qed.

Lemma write_close_views :
  let c' := snd (try_except_finally (execute_write stmt) close_only c) in
  P (committed c') /\ P (working c').
Proof using Hcommitted Hworking Hstmt.
  unfold try_except_finally, execute_write, close_only.
  destruct (stmt (working c)) as [e | db'] eqn:E; cbn; auto.
Qed.
End WriteMethod.

(** A property of the request rows that every statement keeps is kept by
    every call. *)
Section RowInvariant.
Variable Q : request_row -> Prop.
Variable now : timestamp.
Variable k : call.
Hypothesis Hnew : forall uid eng mid,
  k = RegisterRequest uid eng mid ->
  Q (mk_request uid eng mid (Some now) None None None).
Hypothesis Hfulfill : forall uid mid fid fby r,
  k = RegisterRequestFulfillment uid mid fid fby ->
  Q r -> Q (set_fulfillment fid (Some now) fby r).
Hypothesis Hrevert : forall r, Q r -> Q (set_fulfillment None None None r).
Hypothesis Hreassign : forall fmid fby r,
  k = UpdateFulfilledBy fmid fby ->
  Q r -> sql_eq_null (fulfill_message_id r) fmid = true ->
  Q (set_fulfilled_by fby r).

Let inv (db : database) : Prop := Forall Q (requests db).

Lemma update_requests_inv set_ where_ db db' :
  (forall r, Q r -> where_ r = true -> Q (set_ r)) ->
  inv db -> sql_update_requests set_ where_ db = inr db' -> inv db'.
Proof using Type.
  intros Hset Hdb [= <-]. unfold inv in *. cbn.
  rewrite List.Forall_forall in *. intros r' [r [<- Hr]]%in_map_iff.
  destruct (where_ r) eqn:E; auto.
Qed.

Lemma do_call_inv c :
  inv (committed c) -> inv (working c) ->
  inv (committed (snd (do_call now k c)))
  /\ inv (working (snd (do_call now k c))).
Proof using Hnew Hfulfill Hrevert Hreassign.
  intros Hc Hw. destruct k; cbn [do_call].
  - apply write_commit_views; auto.
    unfold sql_insert_user. intros db'.
    destruct (has_user _ _); intros [= <-]; auto.
  - apply write_close_views; auto.
    unfold sql_update_user. intros db' [= <-]; auto.
  - apply write_commit_views; auto.
    unfold sql_insert_request. intros db'.
    destruct (has_request _ _); [discriminate |].
    destruct (negb _); intros [= <-]. unfold inv. cbn.
    apply List.Forall_app; split; auto.
  - apply write_commit_views; auto. intros db'.
    apply update_requests_inv; eauto.
  - apply write_commit_views; auto. intros db'.
    apply update_requests_inv; eauto.
  - apply write_commit_views; auto. intros db'.
    apply update_requests_inv; eauto.
  - apply write_commit_views; auto.
    unfold sql_delete_request. intros db' [= <-]. unfold inv in *. cbn.
    rewrite List.Forall_forall in *. intros r [Hr _]%filter_In. auto.
Qed.
End RowInvariant.

(** ** The fulfillment group *)

Lemma run_snoc trace e c :
  run (trace ++ [e]) c = snd (do_call (fst e) (snd e) (run trace c)).
Proof. unfold run. now rewrite fold_left_app. Qed.

Lemma set_fulfillment_group_ok fid ft fby r :
  is_Some fid -> is_Some fby ->
  fulfillment_group_ok (set_fulfillment fid (Some ft) fby r).
Proof. intros Hfid Hfby. right. cbn. eauto. Qed.

Lemma set_fulfilled_by_group_ok fmid fby r :
  is_Some fby -> fulfillment_group_ok r ->
  sql_eq_null (fulfill_message_id r) fmid = true ->
  fulfillment_group_ok (set_fulfilled_by fby r).
Proof.
  intros Hfby [(Hm & _ & _) | (Hm & Ht & _)] Hwhere.
  - rewrite Hm in Hwhere. discriminate.
  - right. cbn. auto.
Qed.

(** C1, as amended: in every state reached from the empty schema by calls of
    the methods that write, where [register_request_fulfillment] is given a
    [fulfill_id] and a [fulfilled_by] and [update_fulfilled_by] is given a
    [fulfilled_by], the three fulfillment columns of every request are all
    null or all non-null, in the working view and in what is committed. *)
Theorem fulfillment_group_invariant (trace : list (timestamp * call)) :
  Forall (fun e => fulfillment_given (snd e) /\ fulfiller_given (snd e)) trace ->
  Forall fulfillment_group_ok (requests (working (run trace connect)))
  /\ Forall fulfillment_group_ok (requests (committed (run trace connect))).
Proof.
  induction trace as [| e trace IH] using rev_ind; intros Hargs.
  - cbn. auto.
  - apply List.Forall_app in Hargs as [Htrace He].
    apply List.Forall_cons_iff in He as [[Hgiven Hfulfiller] _].
    destruct (IH Htrace) as [Hw Hc]. rewrite run_snoc.
    apply and_comm, do_call_inv; auto.
    + intros; now left.
    + intros uid mid fid fby r Hk _. rewrite Hk in Hgiven.
      destruct Hgiven. now apply set_fulfillment_group_ok.
    + intros; now left.
    + intros fmid fby r Hk Hr Hwhere. rewrite Hk in Hfulfiller.
      eapply set_fulfilled_by_group_ok; eauto.
Qed.

Lemma fulfillment_group_invariant_witness :
  Forall fulfillment_group_ok
    (requests (working (run scenario_fulfilled connect)))
  /\ Forall fulfillment_group_ok
       (requests (committed (run scenario_fulfilled connect))).
Proof.
  apply (fulfillment_group_invariant scenario_fulfilled).
  unfold scenario_fulfilled.
  repeat (apply List.Forall_cons || apply List.Forall_nil);
    cbn; repeat split; eauto.
Defined.

(** C1, as stated, fails: [update_fulfilled_by] with [fulfilled_by = None]
    after a fulfillment leaves [fulfill_message_id] and [fulfill_time] set
    and [fulfilled_by] null. *)
Lemma fulfillment_group_broken_by_null_fulfiller :
  let trace :=
    [(10, AddUser 42 (Some "Ann") None);
     (20, RegisterRequest 42 true 1001);
     (30, RegisterRequestFulfillment 42 1001 (Some 2002) (Some 7));
     (40, UpdateFulfilledBy (Some 2002) None)] in
  Forall (fun e => fulfillment_given (snd e)) trace
  /\ requests (working (run trace connect))
     = [mk_request 42 true 1001 (Some 20) (Some 2002) (Some 30) None]
  /\ ~ Forall fulfillment_group_ok (requests (working (run trace connect))).
Proof.
  cbn zeta. split; [| split].
  - repeat (apply List.Forall_cons || apply List.Forall_nil); cbn; eauto.
  - reflexivity.
  - intros H. apply List.Forall_cons_iff in H as [[(H & _) | (_ & _ & [? H])] _];
      cbn in H; discriminate.
Qed.

(** ** Times *)

Lemma times_ok_mono b b' r : b <= b' -> times_ok b r -> times_ok b' r.
Proof. intros Hb (rt & Hrt & Hle & Hft). exists rt. repeat split; auto; lia. Qed.

Lemma run_times_ok trace : forall c b,
  Forall (times_ok b) (requests (committed c)) ->
  Forall (times_ok b) (requests (working c)) ->
  Forall (fun e => b <= fst e) trace ->
  StronglySorted Z.le (map fst trace) ->
  exists b',
    Forall (times_ok b') (requests (committed (run trace c)))
    /\ Forall (times_ok b') (requests (working (run trace c))).
Proof.
  induction trace as [| [now k] trace IH]; intros c b Hc Hw Hb Hsorted.
  - exists b. cbn. auto.
  - cbn [run fold_left fst snd].
    apply List.Forall_cons_iff in Hb as [Hnow _]. cbn in Hnow.
    cbn [map fst] in Hsorted. apply StronglySorted_inv in Hsorted as [Hs Hhd].
    destruct (do_call_inv (times_ok now) now k) with (c := c) as [Hc' Hw'].
    + intros. exists now. cbn. repeat split; auto; try lia. discriminate.
    + intros uid mid fid fby r _ (rt & Hrt & Hle & _).
      exists rt. cbn. repeat split; auto. now intros ft [= <-].
    + intros r (rt & Hrt & Hle & _). exists rt. cbn. repeat split; auto.
      discriminate.
    + intros fmid fby r _ Hr _. exact Hr.
    + eapply List.Forall_impl; [| exact Hc]. intros r. now apply times_ok_mono.
    + eapply List.Forall_impl; [| exact Hw]. intros r. now apply times_ok_mono.
    + apply (IH _ now); auto.
      rewrite List.Forall_forall in *. intros e He. apply Hhd.
      now apply in_map.
Qed.

(** C8, as amended: in every state reached from the empty schema by calls
    of the methods that write, made at times of the clock that do not
    decrease from one call to the next, every request with a [fulfill_time]
    has a [req_time] that is not after it. *)
Theorem fulfill_time_not_before_req_time (trace : list (timestamp * call)) :
  Sorted Z.le (map fst trace) ->
  Forall fulfilled_after_request (requests (working (run trace connect)))
  /\ Forall fulfilled_after_request (requests (committed (run trace connect))).
Proof.
  intros Hsorted.
  apply Sorted_StronglySorted in Hsorted; [| intros x y z; apply Z.le_trans].
  set (b := match trace with [] => 0 | e :: _ => fst e end).
  destruct (run_times_ok trace connect b) as (b' & Hc & Hw); cbn; auto.
  - subst b. destruct trace as [| e trace]; [constructor |].
    cbn in Hsorted. apply StronglySorted_inv in Hsorted as [_ Hhd].
    constructor; [apply Z.le_refl |].
    rewrite List.Forall_forall in *. intros e' He'. apply Hhd. now apply in_map.
  - split; eapply List.Forall_impl; try eassumption;
      intros r (rt & Hrt & _ & Hft) ft Hf; eauto.
Qed.

Lemma fulfill_time_not_before_req_time_witness :
  Forall fulfilled_after_request
    (requests (working (run scenario_fulfilled connect)))
  /\ Forall fulfilled_after_request
       (requests (committed (run scenario_fulfilled connect))).
Proof.
  apply (fulfill_time_not_before_req_time scenario_fulfilled).
  unfold scenario_fulfilled. cbn.
  repeat (apply Sorted_cons || apply Sorted_nil || apply HdRel_cons
          || apply HdRel_nil); lia.
Defined.

(** C8, as stated, fails: the times are those of [datetime.now()], the clock
    of the machine, which may be set back; a request opened at 100 and
    fulfilled when the clock shows 50 has its [fulfill_time] before its
    [req_time]. *)
Lemma fulfill_time_before_req_time_when_clock_goes_back :
  let trace :=
    [(10, AddUser 42 (Some "Ann") None);
     (100, RegisterRequest 42 true 1001);
     (50, RegisterRequestFulfillment 42 1001 (Some 2002) (Some 7))] in
  requests (working (run trace connect))
  = [mk_request 42 true 1001 (Some 100) (Some 2002) (Some 50) (Some 7)]
  /\ ~ Forall fulfilled_after_request (requests (working (run trace connect))).
Proof.
  cbn zeta. split; [reflexivity |].
  intros H. apply List.Forall_cons_iff in H as [H _].
  destruct (H 50 eq_refl) as (rt & [= <-] & Hle). lia.
Qed.

(** ** Reassigning the fulfiller *)

Lemma sql_eq_null_spec col param :
  sql_eq_null col param = true <-> exists x, param = Some x /\ col = Some x.
Proof.
  destruct col as [a |], param as [b |]; cbn.
  - rewrite Z.eqb_eq. split.
    + intros ->. eauto.
    + intros (x & [= ->] & [= ->]). reflexivity.
  - split; [discriminate | intros (x & Hx & _); discriminate].
  - split; [discriminate | intros (x & _ & Hx); discriminate].
  - split; [discriminate | intros (x & Hx & _); discriminate].
Qed.

(** C6: [update_fulfilled_by] raises nothing, leaves the users table as it
    was, and maps every request row to a row with the same [user_id],
    [is_english], [message_id], [req_time], [fulfill_message_id] and
    [fulfill_time]: a row with the given [fulfill_message_id] gets the given
    [fulfilled_by], any other row is unchanged. *)
Theorem update_fulfilled_by_frame (fmid fby : option Z) (c : connection) :
  let c' := snd (update_fulfilled_by fmid fby c) in
  fst (update_fulfilled_by fmid fby c) = inr tt
  /\ users (working c') = users (working c)
  /\ Forall2
       (fun r r' =>
          same_but_fulfilled_by r r'
          /\ (acknowledged_by fmid r -> fulfilled_by r' = fby)
          /\ (~ acknowledged_by fmid r -> r' = r))
       (requests (working c)) (requests (working c')).
Proof.
  cbn. repeat split.
  induction (requests (working c)) as [| r rs IH]; cbn; constructor; auto.
  unfold acknowledged_by.
  destruct (sql_eq_null (fulfill_message_id r) fmid) eqn:E.
  - repeat split; auto. intros Hno. apply sql_eq_null_spec in E. tauto.
  - repeat split; auto. intros Hyes%sql_eq_null_spec. congruence.
Qed.

(** ** Opening a request *)

Lemma register_request_ok now uid eng mid c :
  has_user uid (working c) = true -> has_request mid (working c) = false ->
  let db := mk_db (users (working c))
              (requests (working c)
               ++ [mk_request uid eng mid (Some now) None None None]) in
  register_request now uid eng mid c = (inr tt, mk_conn db db).
Proof.
  intros Hu Hm. unfold register_request, try_except_finally, execute_write,
    sql_insert_request. now rewrite Hm, Hu.
Qed.

Lemma register_request_unknown_user now uid eng mid c :
  has_user uid (working c) = false -> has_request mid (working c) = false ->
  register_request now uid eng mid c
  = (inl ForeignKeyViolation, rollback c).
Proof.
  intros Hu Hm. unfold register_request, try_except_finally, execute_write,
    sql_insert_request. now rewrite Hm, Hu.
Qed.

Lemma register_request_used_message now uid eng mid c :
  has_request mid (working c) = true ->
  register_request now uid eng mid c = (inl UniqueViolation, rollback c).
Proof.
  intros Hm. unfold register_request, try_except_finally, execute_write,
    sql_insert_request. now rewrite Hm.
Qed.

(** With nothing uncommitted before the call, a failed call leaves the
    connection as it was. *)
Lemma rollback_clean c : working c = committed c -> rollback c = c.
Proof. destruct c as [cm w]. cbn. now intros ->. Qed.

(** C7 at a connection with an uncommitted [update_user]: the profile that
    [get_user_details] showed before the failed [register_request] is gone
    after it. *)
Theorem failed_register_request_discards_update :
  let c := scenario_uncommitted in
  let c' := snd (register_request 30 2 true 5 c) in
  fst (register_request 30 2 true 5 c) = inl ForeignKeyViolation
  /\ fst (get_user_details 1 c)
     = inr (PyDict [("user_id", PyInt 1); ("name", PyStr "c");
                    ("user_name", PyStr "d")])
  /\ fst (get_user_details 1 c')
     = inr (PyDict [("user_id", PyInt 1); ("name", PyStr "a");
                    ("user_name", PyStr "b")])
  /\ working c' <> working c.
Proof. cbn. repeat split. discriminate. Qed.

(** ** Lookups *)

Lemma filter_none {A} (f : A -> bool) (l : list A) :
  Forall (fun x => f x = false) l -> List.filter f l = [].
Proof. induction 1 as [| x l Hx _ IH]; cbn; [| rewrite Hx]; auto. Qed.

Lemma has_user_false uid db :
  has_user uid db = false ->
  List.filter (fun u => u_user_id u =? uid) (users db) = [].
Proof.
  unfold has_user. intros H. apply filter_none, List.Forall_forall.
  intros u Hu. destruct (u_user_id u =? uid) eqn:E; auto.
  rewrite <- H. symmetry. apply existsb_exists. eauto.
Qed.

(** C9: a lookup that matches no row raises nothing and leaves the
    connection as it was.  [get_user_details] of an absent user returns
    [None]; [get_user_last_request] of a user without requests and
    [get_latest_fulfilled] without a fulfilled request return the dict whose
    values are all [None]. *)
Theorem lookups_of_absent_rows (uid : Z) (c : connection) :
  (has_user uid (working c) = false ->
   get_user_details uid c = (inr PyNone, c))
  /\ (Forall (fun r => user_id r <> uid) (requests (working c)) ->
      get_user_last_request uid c = (inr no_last_request, c))
  /\ (Forall (fun r => fulfill_time r = None) (requests (working c)) ->
      get_latest_fulfilled c = (inr no_latest_fulfilled, c)).
Proof.
  repeat split.
  - intros H. unfold get_user_details, bind, try_except_finally,
      execute_query, q_user_details. now rewrite (has_user_false _ _ H).
  - intros H. unfold get_user_last_request, bind, try_except_finally,
      execute_query, q_user_last_request. rewrite filter_none; [reflexivity |].
    eapply List.Forall_impl; [| exact H]. intros r Hr. now apply Z.eqb_neq.
  - intros H. unfold get_latest_fulfilled, bind, try_except_finally,
      execute_query, q_latest_fulfilled. rewrite filter_none; [reflexivity |].
    eapply List.Forall_impl; [| exact H]. intros r Hr.
    unfold is_fulfilled_col. now rewrite Hr.
Qed.

Lemma lookups_of_absent_rows_witness :
  get_user_details 2 scenario_uncommitted = (inr PyNone, scenario_uncommitted)
  /\ get_user_last_request 1 scenario_uncommitted
     = (inr no_last_request, scenario_uncommitted)
  /\ get_latest_fulfilled scenario_uncommitted
     = (inr no_latest_fulfilled, scenario_uncommitted).
Proof.
  destruct (lookups_of_absent_rows 2 scenario_uncommitted) as (H1 & _ & H3).
  destruct (lookups_of_absent_rows 1 scenario_uncommitted) as (_ & H2 & _).
  split; [apply H1; reflexivity |].
  split; [apply H2 | apply H3]; constructor.
Defined.

(** ** ORDER BY *)

Section OrderBy.
Context {A : Type} (le : A -> A -> bool).
Hypothesis le_total : forall a b, le a b = true \/ le b a = true.
Hypothesis le_trans :
  forall a b c, le a b = true -> le b c = true -> le a c = true.

Lemma insert_by_perm x l : Permutation (insert_by le x l) (x :: l).
Proof using Type.
  induction l as [| y l IH]; cbn; [reflexivity |].
  destruct (le x y); [reflexivity |].
  rewrite IH. apply perm_swap.
Qed.

Lemma order_by_perm l : Permutation (order_by le l) l.
Proof using Type.
  induction l as [| x l IH]; cbn; [reflexivity |].
  now rewrite insert_by_perm, IH.
Qed.

Lemma insert_by_sorted x l :
  Sorted (fun a b => le a b = true) l ->
  Sorted (fun a b => le a b = true) (insert_by le x l).
Proof using le_total.
  induction 1 as [| y l Hl IH Hhd]; cbn.
  - repeat constructor.
  - destruct (le x y) eqn:E.
    + repeat constructor; auto.
    + constructor; auto.
      destruct (le_total x y) as [Hxy | Hyx]; [congruence |].
      destruct Hhd as [| z l Hyz]; cbn.
      * now constructor.
      * destruct (le x z); now constructor.
Qed.

Lemma order_by_sorted l : Sorted (fun a b => le a b = true) (order_by le l).
Proof using le_total.
  induction l as [| x l IH]; cbn; [constructor | now apply insert_by_sorted].
Qed.

Lemma order_by_strongly_sorted l :
  StronglySorted (fun a b => le a b = true) (order_by le l).
Proof using le_total le_trans.
  apply Sorted_StronglySorted; [| apply order_by_sorted].
  intros a b c. apply le_trans.
Qed.

(** [ORDER BY ... LIMIT 1]: no row of a table without rows, else a row
    that may stand before every row. *)
Lemma limit_1_order_by l :
  (l = [] /\ limit_1 (order_by le l) = [])
  \/ exists r, limit_1 (order_by le l) = [r] /\ In r l
               /\ forall r', In r' l -> le r r' = true.
Proof using le_total le_trans.
  pose proof (order_by_perm l) as Hperm.
  pose proof (order_by_strongly_sorted l) as Hsorted.
  destruct (order_by le l) as [| r rest].
  - left. split; [| reflexivity].
    now apply Permutation_nil.
  - right. exists r. split; [reflexivity |].
    split; [apply (Permutation_in _ Hperm); now left |].
    intros r' Hr'. apply Permutation_sym in Hperm.
    apply (Permutation_in _ Hperm) in Hr' as [<- | Hr'].
    + destruct (le_total r r); auto.
    + apply StronglySorted_inv in Hsorted as [_ Hhd].
      rewrite List.Forall_forall in Hhd. auto.
Qed.
End OrderBy.

Lemma le_nulls_last_total a b :
  le_nulls_last a b = true \/ le_nulls_last b a = true.
Proof.
  destruct a as [x |], b as [y |]; cbn; auto.
  rewrite !Z.leb_le. lia.
Qed.

Lemma le_nulls_last_trans a b c :
  le_nulls_last a b = true -> le_nulls_last b c = true ->
  le_nulls_last a c = true.
Proof.
  destruct a as [x |], b as [y |], c as [z |]; cbn; auto; try discriminate.
  rewrite !Z.leb_le. lia.
Qed.

Lemma has_user_true uid db :
  has_user uid db = true ->
  exists u rest,
    List.filter (fun u => u_user_id u =? uid) (users db) = u :: rest
    /\ u_user_id u = uid.
Proof.
  unfold has_user. intros (u & Hin & Hu)%existsb_exists.
  destruct (List.filter _ (users db)) as [| u' rest] eqn:E.
  - assert (In u []) as [].
    rewrite <- E. apply filter_In. auto.
  - exists u', rest. split; [reflexivity |].
    assert (In u' (u' :: rest)) as Hu' by now left.
    rewrite <- E in Hu'. apply filter_In in Hu' as [_ Hu'].
    now apply Z.eqb_eq.
Qed.

(** C10: [get_user] returns the one-element tuple [(user_id,)] for a user of
    the table and [None] for any other id; [get_oldest_request_time]
    returns [None] when there is no request, and else the one-element tuple
    of the [req_time] of a request that no request with a [req_time]
    precedes. *)
Theorem get_user_and_oldest_request_time (uid : Z) (c : connection) :
  (has_user uid (working c) = true ->
   get_user uid c = (inr (PyTuple [PyInt uid]), c))
  /\ (has_user uid (working c) = false -> get_user uid c = (inr PyNone, c))
  /\ (requests (working c) = [] ->
      get_oldest_request_time c = (inr PyNone, c))
  /\ (requests (working c) <> [] ->
      exists r,
        In r (requests (working c))
        /\ get_oldest_request_time c
           = (inr (PyTuple [opt_time (req_time r)]), c)
        /\ forall r' t', In r' (requests (working c)) ->
             req_time r' = Some t' ->
             exists t, req_time r = Some t /\ t <= t').
Proof.
  repeat split.
  - intros (u & rest & E & <-)%has_user_true.
    unfold get_user, bind, try_except_finally, execute_query, q_user.
    now rewrite E.
  - intros H. unfold get_user, bind, try_except_finally, execute_query,
      q_user. now rewrite (has_user_false _ _ H).
  - intros H. unfold get_oldest_request_time, bind, try_except_finally,
      execute_query, q_oldest_request_time. now rewrite H.
  - intros Hne.
    destruct (limit_1_order_by
                (fun a b => le_nulls_last (req_time a) (req_time b))
                (fun a b => le_nulls_last_total _ _)
                (fun a b c => le_nulls_last_trans _ _ _)
                (requests (working c)))
      as [[Hnil _] | (r & Hr & Hin & Hmin)]; [contradiction |].
    exists r. split; [assumption |]. split.
    + unfold get_oldest_request_time, bind, try_except_finally,
        execute_query, q_oldest_request_time. now rewrite Hr.
    + intros r' t' Hr' Ht'. specialize (Hmin r' Hr'). rewrite Ht' in Hmin.
      destruct (req_time r) as [t |]; [| discriminate].
      exists t. split; [reflexivity |]. now apply Z.leb_le.
Qed.

Lemma get_user_and_oldest_request_time_witness :
  get_user 42 (run scenario_fulfilled connect)
  = (inr (PyTuple [PyInt 42]), run scenario_fulfilled connect)
  /\ get_user 43 (run scenario_fulfilled connect)
     = (inr PyNone, run scenario_fulfilled connect)
  /\ get_oldest_request_time connect = (inr PyNone, connect)
  /\ get_oldest_request_time (run scenario_fulfilled connect)
     = (inr (PyTuple [PyDatetime 20]), run scenario_fulfilled connect).
Proof.
  destruct (get_user_and_oldest_request_time 42 (run scenario_fulfilled connect))
    as (H1 & _ & _ & H4).
  destruct (get_user_and_oldest_request_time 43 (run scenario_fulfilled connect))
    as (_ & H2 & _ & _).
  destruct (get_user_and_oldest_request_time 0 connect) as (_ & _ & H3 & _).
  split; [apply H1; reflexivity |].
  split; [apply H2; reflexivity |].
  split; [apply H3; reflexivity |].
  destruct H4 as (r & Hin & Hret & _); [discriminate |].
  destruct Hin as [<- | []]. exact Hret.
Defined.

(** ** GROUP BY *)

Section GroupBy.
Context {K : Type} (eqb : K -> K -> bool).
Hypothesis eqb_spec : forall a b, eqb a b = true <-> a = b.

Lemma group_keys_in k l : In k (group_keys eqb l) <-> In k l.
Proof using eqb_spec.
  induction l as [| k0 l IH]; cbn; [reflexivity |].
  rewrite filter_In, IH. split.
  - intros [-> | [H _]]; auto.
  - intros [-> | H]; auto.
    destruct (eqb k0 k) eqn:E.
    + left. now apply eqb_spec.
    + right. auto.
Qed.

Lemma group_keys_nodup l : List.NoDup (group_keys eqb l).
Proof using eqb_spec.
  induction l as [| k0 l IH]; cbn; constructor.
  - intros [_ H]%filter_In.
    assert (eqb k0 k0 = true) as E by now apply eqb_spec.
    rewrite E in H. discriminate.
  - now apply List.NoDup_filter.
Qed.

Lemma count_key_absent k l : ~ In k l -> count_key eqb k l = 0.
Proof using eqb_spec.
  intros H. unfold count_key. rewrite filter_none; [reflexivity |].
  apply List.Forall_forall. intros k' Hk'.
  destruct (eqb k k') eqn:E; [| reflexivity].
  apply eqb_spec in E. congruence.
Qed.

Lemma count_key_present k l : In k l -> 0 < count_key eqb k l.
Proof using eqb_spec.
  intros H. unfold count_key.
  destruct (List.filter (eqb k) l) as [| k' rest] eqn:E; cbn; [| lia].
  assert (In k []) as []. rewrite <- E. apply filter_In.
  split; [assumption | now apply eqb_spec].
Qed.

Lemma group_count_in k n l :
  In (k, n) (group_count eqb l) <-> In k l /\ n = count_key eqb k l.
Proof using eqb_spec.
  unfold group_count. rewrite in_map_iff. split.
  - intros (k' & [= <- <-] & Hk'). now rewrite <- group_keys_in.
  - intros [Hk ->]. exists k. now rewrite group_keys_in.
Qed.

Lemma group_count_keys l : map fst (group_count eqb l) = group_keys eqb l.
Proof using Type.
  unfold group_count. rewrite map_map. cbn. apply map_id.
Qed.
End GroupBy.

(** ** Statistics *)

Lemma stats_key_eqb_spec a b : stats_key_eqb a b = true <-> a = b.
Proof.
  destruct a as [[] []], b as [[] []]; cbn; split; congruence.
Qed.

Lemma get_put_stat key key' v acc :
  get_stat key (put_stat key' v acc)
  = if stats_key_eqb key' key then v else get_stat key acc.
Proof.
  destruct acc as [[[a b] c] d], key as [[] []], key' as [[] []]; reflexivity.
Qed.

(** The loop over the rows of the groups [ks], where the group of [k] has
    [cnt k] rows: every group met has its count in its variable. *)
Lemma stats_loop_groups (cnt : bool * bool -> Z) ks : forall acc,
  exists acc',
    stats_loop
      (map (fun k => PyTuple [PyBool (snd k); PyBool (fst k); PyInt (cnt k)])
         ks) acc = inr acc'
    /\ forall key, get_stat key acc'
                   = if existsb (stats_key_eqb key) ks
                     then PyInt (cnt key) else get_stat key acc.
Proof.
  induction ks as [| k ks IH]; intros acc.
  - exists acc. split; reflexivity.
  - destruct (IH (put_stat k (PyInt (cnt k)) acc)) as (acc' & Hloop & Hget).
    exists acc'. split.
    + cbn [map stats_loop is_none orb truthy]. rewrite <- Hloop.
      destruct acc as [[[a b] c] d], k as [[] []]; reflexivity.
    + intros key. rewrite Hget, get_put_stat. cbn [existsb].
      destruct (stats_key_eqb key k) eqn:E.
      * apply stats_key_eqb_spec in E as ->.
        rewrite orb_true_l.
        destruct (existsb _ ks); [reflexivity |].
        now rewrite (proj2 (stats_key_eqb_spec k k) eq_refl).
      * rewrite orb_false_l. destruct (existsb _ ks); [reflexivity |].
        destruct (stats_key_eqb k key) eqn:E'; [| reflexivity].
        apply stats_key_eqb_spec in E' as ->.
        now rewrite (proj2 (stats_key_eqb_spec key key) eq_refl) in E.
Qed.

Lemma count_key_bucket eng fulfilled rs :
  count_key stats_key_eqb (eng, fulfilled)
    (map (fun r => (is_english r, is_fulfilled_col r)) rs)
  = bucket eng fulfilled rs.
Proof.
  unfold count_key, bucket. f_equal.
  induction rs as [| r rs IH]; cbn; [reflexivity |].
  unfold stats_key_eqb at 1. cbn [fst snd].
  destruct (_ && _); cbn; now rewrite IH.
Qed.

Lemma buckets_sum rs :
  bucket true true rs + bucket false true rs + bucket true false rs
  + bucket false false rs = Z.of_nat (length rs).
Proof.
  unfold bucket. induction rs as [| r rs IH]; [reflexivity |].
  cbn [List.filter].
  destruct (is_english r), (is_fulfilled_col r); cbn -[Z.of_nat] in *; lia.
Qed.

(** Each of the four numbers is the size of its part of the rows. *)
Lemma stats_body_buckets q rs c :
  q (working c) = q_stats rs ->
  stats_body q c
  = (inr (PyTuple [PyInt (bucket true true rs); PyInt (bucket false true rs);
                   PyInt (bucket true false rs);
                   PyInt (bucket false false rs)]), c).
Proof.
  intros Hq. unfold stats_body, bind, execute_query. rewrite Hq.
  unfold q_stats, group_count. rewrite map_map. cbn [fst snd].
  set (keys := map (fun r => (is_english r, is_fulfilled_col r)) rs).
  destruct (stats_loop_groups (fun k => count_key stats_key_eqb k keys)
              (group_keys stats_key_eqb keys)
              (PyInt 0, PyInt 0, PyInt 0, PyInt 0)) as (acc & Hloop & Hget).
  rewrite Hloop. unfold ret. f_equal. f_equal.
  assert (forall eng fulfilled,
             get_stat (eng, fulfilled) acc = PyInt (bucket eng fulfilled rs))
    as Hbucket.
  { intros eng fulfilled. rewrite Hget, <- count_key_bucket. fold keys.
    destruct (existsb _ _) eqn:E; [reflexivity |].
    rewrite count_key_absent; [now destruct eng, fulfilled | |].
    - apply stats_key_eqb_spec.
    - intros Hin. apply (group_keys_in _ stats_key_eqb_spec) in Hin.
      assert (existsb (stats_key_eqb (eng, fulfilled))
                (group_keys stats_key_eqb keys) = true) as E'.
      { apply existsb_exists. exists (eng, fulfilled).
        split; [assumption | now apply stats_key_eqb_spec]. }
      congruence. }
  pose proof (Hbucket true true) as H1. pose proof (Hbucket false true) as H2.
  pose proof (Hbucket true false) as H3. pose proof (Hbucket false false) as H4.
  destruct acc as [[[a b] c'] d]. cbn in H1, H2, H3, H4. now subst.
Qed.

(** C2: the four numbers that [get_user_stats] returns add up to the number
    of the requests of the user, and the four that [get_global_stats] returns
    to the number of all requests. *)
Theorem stats_sum_to_row_count (uid : Z) (c : connection) :
  (exists ef nef ep nep,
      get_user_stats uid c
      = (inr (PyTuple [PyInt ef; PyInt nef; PyInt ep; PyInt nep]), c)
      /\ ef + nef + ep + nep
         = Z.of_nat (length (List.filter (fun r => user_id r =? uid)
                               (requests (working c)))))
  /\ (exists ef nef ep nep,
         get_global_stats c
         = (inr (PyTuple [PyInt ef; PyInt nef; PyInt ep; PyInt nep]), c)
         /\ ef + nef + ep + nep = Z.of_nat (length (requests (working c)))).
Proof.
  split.
  - set (rs := List.filter (fun r => user_id r =? uid) (requests (working c))).
    exists (bucket true true rs), (bucket false true rs),
      (bucket true false rs), (bucket false false rs).
    split; [| apply buckets_sum].
    unfold get_user_stats, try_except_finally, close_only.
    now rewrite (stats_body_buckets _ rs).
  - set (rs := requests (working c)).
    exists (bucket true true rs), (bucket false true rs),
      (bucket true false rs), (bucket false false rs).
    split; [| apply buckets_sum].
    unfold get_global_stats, try_except_finally, close_only.
    now rewrite (stats_body_buckets _ rs).
Qed.

(** ** The leaderboard *)

Lemma StronglySorted_impl {A} (R R' : A -> A -> Prop) l :
  (forall a b, R a b -> R' a b) -> StronglySorted R l -> StronglySorted R' l.
Proof.
  intros HR. induction 1 as [| a l Hl IH Hhd]; constructor; auto.
  eapply List.Forall_impl; [| exact Hhd]. auto.
Qed.

Lemma count_key_fulfillers f db :
  count_key Z.eqb f (fulfillers db) = fulfilled_count f db.
Proof.
  unfold count_key, fulfilled_count, fulfillers. f_equal.
  induction (requests db) as [| r rs IH]; cbn; [reflexivity |].
  destruct (fulfilled_by r) as [f' |]; cbn; [| assumption].
  rewrite (Z.eqb_sym f' f). destruct (f =? f'); cbn; now rewrite IH.
Qed.

Lemma fulfillers_in f db : In f (fulfillers db) <-> 0 < fulfilled_count f db.
Proof.
  rewrite <- count_key_fulfillers. split.
  - apply count_key_present, Z.eqb_eq.
  - intros Hpos. destruct (in_dec Z.eq_dec f (fulfillers db)) as [| Hno]; auto.
    rewrite (count_key_absent _ Z.eqb_eq) in Hpos; [lia | assumption].
Qed.

(** C5: [get_leaderboard] returns one row [(count, fulfilled_by)] for every
    fulfiller that some request names in [fulfilled_by], and no other row;
    the count is the number of the requests with that [fulfilled_by]; no
    fulfiller has two rows; the counts do not increase along the rows. *)
Theorem get_leaderboard_spec (c : connection) :
  exists pairs : list (Z * Z),
    get_leaderboard c = (inr (map leaderboard_row pairs), commit c)
    /\ StronglySorted (fun a b => snd b <= snd a) pairs
    /\ List.NoDup (map fst pairs)
    /\ forall fulfiller count,
         In (fulfiller, count) pairs
         <-> 0 < count /\ count = fulfilled_count fulfiller (working c).
Proof.
  set (le := fun a b : Z * Z => snd b <=? snd a).
  set (groups := group_count Z.eqb (fulfillers (working c))).
  exists (order_by le groups).
  pose proof (order_by_perm le groups) as Hperm.
  split; [reflexivity |]. split; [| split].
  - apply StronglySorted_impl with (R := fun a b => le a b = true).
    + intros a b. apply Z.leb_le.
    + apply order_by_strongly_sorted.
      * intros a b. unfold le. rewrite !Z.leb_le. lia.
      * intros a b d. unfold le. rewrite !Z.leb_le. lia.
  - apply Permutation_NoDup with (l := map fst groups).
    + symmetry. now apply Permutation_map.
    + unfold groups. rewrite group_count_keys.
      apply group_keys_nodup, Z.eqb_eq.
  - intros f n. split.
    + intros Hin. apply (Permutation_in _ Hperm) in Hin.
      apply (group_count_in _ Z.eqb_eq) in Hin as [Hf ->].
      rewrite count_key_fulfillers. split; [| reflexivity].
      now apply fulfillers_in.
    + intros [Hpos ->]. apply (Permutation_in _ (Permutation_sym Hperm)).
      apply (group_count_in _ Z.eqb_eq). rewrite count_key_fulfillers.
      split; [| reflexivity]. now apply fulfillers_in.
Qed.

(** ** Weekly statistics *)

Lemma weekly_loop_fold (weeks : list (timestamp * timestamp * string)) c :
  forall results,
    weekly_loop weeks results c
    = (inr (fold_left
              (fun m w => <[snd w := week_counts (working c) (fst (fst w))
                                       (snd (fst w))]> m)
              weeks results), c).
Proof.
  induction weeks as [| [[week_start week_end] week_number] weeks IH];
    intros results; [reflexivity |].
  cbn [weekly_loop fold_left]. unfold bind, execute_query.
  now rewrite IH.
Qed.

(** [get_weekly_stats] raises nothing; a label given twice keeps the counts
    of its last week. *)
Lemma get_weekly_stats_fold (weeks : list (timestamp * timestamp * string)) c :
  get_weekly_stats weeks c
  = (inr (fold_left
            (fun m w => <[snd w := week_counts (working c) (fst (fst w))
                                     (snd (fst w))]> m)
            weeks ∅), commit c).
Proof.
  unfold get_weekly_stats, try_except_finally. now rewrite weekly_loop_fold.
Qed.

(** Away from the instant [week_end + 1 day] the closed range of the query is
    the half-open range. *)
Lemma sql_between_half_open col lo hi :
  col <> Some hi -> sql_between col lo hi = in_half_open lo hi col.
Proof.
  destruct col as [t |]; cbn; [| reflexivity]. intros Hne.
  assert (t <> hi) by congruence.
  destruct (lo <=? t); cbn; [| reflexivity].
  destruct (Z.leb_spec t hi), (Z.ltb_spec t hi); auto; lia.
Qed.

(** With no request opened at the instant [hi] itself, the query counts the
    requests opened from [lo] to [hi], [hi] excluded. *)
Lemma q_count_req_time_half_open lo hi db :
  Forall (fun r => req_time r <> Some hi) (requests db) ->
  q_count_req_time lo hi db
  = Z.of_nat
      (length (List.filter (fun r => in_half_open lo hi (req_time r))
                 (requests db))).
Proof.
  intros H. unfold q_count_req_time. do 2 f_equal.
  apply filter_ext_in. intros r Hr. apply sql_between_half_open.
  rewrite List.Forall_forall in H. auto.
Qed.

Lemma q_count_fulfill_time_half_open lo hi db :
  Forall (fun r => fulfill_time r <> Some hi) (requests db) ->
  q_count_fulfill_time lo hi db
  = Z.of_nat
      (length (List.filter (fun r => in_half_open lo hi (fulfill_time r))
                 (requests db))).
Proof.
  intros H. unfold q_count_fulfill_time. do 2 f_equal.
  apply filter_ext_in. intros r Hr. apply sql_between_half_open.
  rewrite List.Forall_forall in H. auto.
Qed.

(** Scenario E: opened in the week, fulfilled after it. *)
Lemma weekly_stats_scenario_e :
  exists results,
    fst (get_weekly_stats [week_1] scenario_week) = inr results
    /\ results !! "W1" = Some (1, 0).
Proof. eexists. split; [reflexivity |]. vm_compute. reflexivity. Qed.

(** C3 at a request opened at 2024-01-08 00:00:00: the instant is the end
    boundary [2024-01-07 + 1 day] of the first week, outside the half-open
    range, and the first week counts the request as opened; so does the
    second week, which begins then. *)
Theorem weekly_stats_count_the_end_boundary :
  let '(week_start, week_end, _) := week_1 in
  requests (working scenario_midnight)
  = [mk_request 42 true 1001 (Some (week_end + one_day)) None None None]
  /\ in_half_open week_start (week_end + one_day) (Some (week_end + one_day))
     = false
  /\ exists results,
       fst (get_weekly_stats [week_1; week_2] scenario_midnight) = inr results
       /\ results !! "W1" = Some (1, 0)
       /\ results !! "W2" = Some (1, 0).
Proof.
  cbn [week_1]. split; [reflexivity |]. split; [reflexivity |].
  eexists. split; [reflexivity |]. split; vm_compute; reflexivity.
Qed.

(** ** The backup *)

Lemma format_data_null_and_time :
  format_data PyNone = "NULL"
  /\ format_data (PyDatetime (datetime 2024 1 3 10 0 5 0))
     = "'2024-01-03 10:00:05'".
Proof. split; reflexivity. Qed.

(** A text with an apostrophe is written between double quotes, which is how
    SQL writes the name of a column, not a text. *)
Lemma format_data_apostrophe :
  format_data (PyStr "O'Brien")
  = String double_quote ("O'Brien" +:+ String double_quote "").
Proof. reflexivity. Qed.

(** A backslash is doubled and a line feed is written as a backslash and an
    [n], which SQL reads as these two characters. *)
Lemma format_data_escapes :
  format_data (PyStr (String backslash (String "010"%char "")))
  = String single_quote
      (String backslash
         (String backslash (String backslash ("n" +:+ String single_quote "")))).
Proof. reflexivity. Qed.

Lemma backup_of_dataset_0 : backup_of (dataset 0) = inr dataset_backup.
Proof. vm_compute. reflexivity. Qed.

Lemma backup_of_dataset_250000 :
  backup_of (dataset 250000) = inr dataset_backup.
Proof. vm_compute. reflexivity. Qed.

(** C4 at two datasets that differ in the microseconds of one [req_time]:
    [get_backup_data] writes the same statements for both. *)
Theorem backup_drops_microseconds :
  dataset 0 <> dataset 250000
  /\ backup_of (dataset 0) = inr dataset_backup
  /\ backup_of (dataset 250000) = inr dataset_backup.
Proof.
  split; [discriminate |]. split; vm_compute; reflexivity.
Qed.

(** So no way of replaying the statements gives back every dataset, even up
    to the order of the rows. *)
Lemma no_replay_restores_every_dataset :
  ~ exists replay : list (string * string) -> database,
      forall db members,
        backup_of db = inr members ->
        Permutation (requests (replay members)) (requests db).
Proof.
  intros [replay Hreplay].
  pose proof (Hreplay _ _ backup_of_dataset_0) as H0.
  pose proof (Hreplay _ _ backup_of_dataset_250000) as H1.
  rewrite H0 in H1. apply Permutation_length_1 in H1. discriminate.
Qed.


(** * More of the code *)

(** ** The keys in the states that the calls reach *)

Lemma has_user_in uid db : has_user uid db = true <-> In uid (user_ids db).
Proof.
  unfold has_user, user_ids. rewrite existsb_exists, in_map_iff. split.
  - intros (u & Hu & E). exists u. split; [now apply Z.eqb_eq | assumption].
  - intros (u & E & Hu). exists u. split; [assumption | now apply Z.eqb_eq].
Qed.

Lemma has_request_in mid db :
  has_request mid db = true <-> In mid (message_ids db).
Proof.
  unfold has_request, message_ids. rewrite existsb_exists, in_map_iff. split.
  - intros (r & Hr & E). exists r. split; [now apply Z.eqb_eq | assumption].
  - intros (r & E & Hr). exists r. split; [assumption | now apply Z.eqb_eq].
Qed.

Lemma has_user_not_in uid db : has_user uid db = false <-> ~ In uid (user_ids db).
Proof.
  rewrite <- has_user_in. destruct (has_user uid db); split; congruence.
Qed.

Lemma has_request_not_in mid db :
  has_request mid db = false <-> ~ In mid (message_ids db).
Proof.
  rewrite <- has_request_in. destruct (has_request mid db); split; congruence.
Qed.

Lemma NoDup_snoc {A} (l : list A) x :
  List.NoDup l -> ~ In x l -> List.NoDup (l ++ [x]).
Proof.
  intros Hl Hx. apply Permutation_NoDup with (l := x :: l).
  - apply Permutation_cons_append.
  - now constructor.
Qed.

Lemma NoDup_map_filter {A B} (f : A -> B) (p : A -> bool) l :
  List.NoDup (map f l) -> List.NoDup (map f (List.filter p l)).
Proof.
  induction l as [| x l IH]; cbn; [auto |].
  intros [Hx Hl]%List.NoDup_cons_iff. destruct (p x); cbn; auto.
  constructor; auto.
  intros (y & E & [Hy _]%filter_In)%in_map_iff.
  apply Hx. rewrite <- E. now apply in_map.
Qed.

(** The keys and the references are read off the ids of the users and the
    request rows. *)
Lemma well_formed_of db db' cm :
  user_ids db' = user_ids db -> requests db' = requests db ->
  well_formed (mk_conn cm db) -> well_formed (mk_conn cm db').
Proof.
  intros Hu Hr (H1 & H2 & [H3 H4] & H5). unfold well_formed, keys_unique,
    references_ok, message_ids in *. cbn in *. rewrite Hu, Hr. auto.
Qed.

Lemma well_formed_rollback c : well_formed c -> well_formed (rollback c).
Proof.
  intros (H1 & H2 & [H3 H4] & H5). unfold well_formed, keys_unique,
    references_ok, message_ids, rollback in *. cbn.
  rewrite <- H1, <- H2. auto.
Qed.

Lemma well_formed_commit db :
  keys_unique db -> references_ok db -> well_formed (mk_conn db db).
Proof. intros. repeat split; cbn; auto; apply H. Qed.

Lemma update_requests_keeps_ids set_ (where_ : request_row -> bool) rs :
  (forall r, message_id (set_ r) = message_id r) ->
  (forall r, user_id (set_ r) = user_id r) ->
  map message_id (map (fun r => if where_ r then set_ r else r) rs)
  = map message_id rs
  /\ Forall2 (fun r r' => user_id r' = user_id r) rs
       (map (fun r => if where_ r then set_ r else r) rs).
Proof.
  intros Hm Hu. induction rs as [| r rs [IH1 IH2]]; cbn; [auto |].
  split.
  - rewrite IH1. destruct (where_ r); now rewrite ?Hm.
  - constructor; [| assumption]. destruct (where_ r); now rewrite ?Hu.
Qed.

Lemma well_formed_update_requests set_ where_ c :
  (forall r, message_id (set_ r) = message_id r) ->
  (forall r, user_id (set_ r) = user_id r) ->
  well_formed c ->
  well_formed
    (snd (try_except_finally
            (execute_write (sql_update_requests set_ where_)) commit c)).
Proof.
  intros Hm Hu (_ & _ & [H3 H4] & H5). cbn.
  destruct (update_requests_keeps_ids set_ where_ (requests (working c)) Hm Hu)
    as [Hids Huids].
  apply well_formed_commit.
  - split; [exact H3 |]. unfold message_ids. cbn. now rewrite Hids.
  - unfold references_ok, user_ids in *. cbn.
    rewrite List.Forall_forall in *.
    intros r' Hr'. clear Hids.
    induction Huids as [| r r2 rs rs2 E _ IH]; [destruct Hr' |].
    destruct Hr' as [<- | Hr'].
    + rewrite E. apply H5. now left.
    + apply IH; auto. intros x Hx. apply H5. now right.
Qed.

Lemma do_call_well_formed now k c :
  well_formed c -> well_formed (snd (do_call now k c)).
Proof.
  intros Hwf. pose proof Hwf as (H1 & H2 & [H3 H4] & H5).
  destruct k; cbn [do_call].
  - unfold add_user, try_except_finally, execute_write, sql_insert_user.
    cbn [u_user_id]. destruct (has_user uid (working c)) eqn:E; cbn [snd].
    + now apply (well_formed_rollback c).
    + apply has_user_not_in in E. apply well_formed_commit.
      * split; [| exact H4]. unfold user_ids. cbn. rewrite map_app. cbn.
        now apply NoDup_snoc.
      * unfold references_ok, user_ids in *. cbn. rewrite map_app.
        eapply List.Forall_impl; [| exact H5]. intros r Hr.
        apply in_or_app. now left.
  - cbn. apply well_formed_of with (db := working c); cbn.
    + unfold user_ids. cbn. rewrite map_map. apply map_ext.
      intros u. now destruct (u_user_id u =? uid).
    + reflexivity.
    + now destruct c.
  - unfold register_request, try_except_finally, execute_write,
      sql_insert_request.
    destruct (has_request mid (working c)) eqn:Em; cbn [snd].
    { now apply (well_formed_rollback c). }
    destruct (has_user uid (working c)) eqn:Eu; cbn [negb snd].
    2: { now apply (well_formed_rollback c). }
    apply has_request_not_in in Em. apply has_user_in in Eu.
    apply well_formed_commit.
    + split; [exact H3 |]. unfold message_ids. cbn. rewrite map_app. cbn.
      now apply NoDup_snoc.
    + unfold references_ok. cbn. apply List.Forall_app. split; [exact H5 |].
      constructor; [exact Eu | constructor].
  - now apply well_formed_update_requests.
  - now apply well_formed_update_requests.
  - now apply well_formed_update_requests.
  - cbn. apply well_formed_commit.
    + split; [exact H3 |]. unfold message_ids in *. cbn.
      now apply NoDup_map_filter.
    + unfold references_ok in *. cbn. rewrite List.Forall_forall in *.
      intros r [Hr _]%filter_In. auto.
Qed.

Lemma run_well_formed trace : forall c,
  well_formed c -> well_formed (run trace c).
Proof.
  induction trace as [| e trace IH]; intros c Hc; [exact Hc |].
  cbn. apply IH. now apply do_call_well_formed.
Qed.

Lemma connect_well_formed : well_formed connect.
Proof. repeat split; cbn; constructor. Qed.

(** X1: in every state that calls of the methods that write reach from the
    empty schema, no two users have the same [user_id] and no two requests
    the same [message_id], in the working view and in what is committed. *)
Theorem primary_keys_unique (trace : list (timestamp * call)) :
  keys_unique (working (run trace connect))
  /\ keys_unique (committed (run trace connect)).
Proof.
  destruct (run_well_formed trace connect connect_well_formed)
    as (H1 & H2 & [H3 H4] & _).
  split; [now split |].
  unfold keys_unique, message_ids in *. rewrite <- H1, <- H2. now split.
Qed.

(** X2: in every such state the [user_id] of every request is the id of a
    user of the table. *)
Theorem requests_reference_users (trace : list (timestamp * call)) :
  Forall (fun r => has_user (user_id r) (working (run trace connect)) = true)
    (requests (working (run trace connect)))
  /\ Forall
       (fun r => has_user (user_id r) (committed (run trace connect)) = true)
       (requests (committed (run trace connect))).
Proof.
  destruct (run_well_formed trace connect connect_well_formed)
    as (H1 & H2 & _ & H5).
  unfold references_ok in H5. split.
  - eapply List.Forall_impl; [| exact H5]. intros r. apply has_user_in.
  - rewrite <- H1. eapply List.Forall_impl; [| exact H5].
    intros r Hr. apply has_user_in. now rewrite <- H2.
Qed.

(** X3: in every such state the open transaction holds no change of the
    requests table and has added no user: what is not yet committed is at
    most the names that [update_user] has set. *)
Theorem uncommitted_is_names_only (trace : list (timestamp * call)) :
  requests (working (run trace connect))
  = requests (committed (run trace connect))
  /\ map u_user_id (users (working (run trace connect)))
     = map u_user_id (users (committed (run trace connect))).
Proof.
  destruct (run_well_formed trace connect connect_well_formed)
    as (H1 & H2 & _). now split.
Qed.

(** ** What one call does to the tables *)

Lemma do_call_user_ids now k c :
  well_formed c ->
  exists more,
    user_ids (working (snd (do_call now k c)))
    = (user_ids (working c) ++ more)%list.
Proof.
  intros (H1 & H2 & _). destruct k; cbn [do_call].
  - unfold add_user, try_except_finally, execute_write, sql_insert_user.
    cbn [u_user_id]. destruct (has_user uid (working c)); cbn.
    + exists []. now rewrite app_nil_r.
    + exists [uid]. unfold user_ids. cbn. now rewrite map_app.
  - exists []. rewrite app_nil_r. unfold user_ids. cbn. rewrite map_map.
    apply map_ext. intros u. now destruct (u_user_id u =? uid).
  - unfold register_request, try_except_finally, execute_write,
      sql_insert_request.
    exists []. rewrite app_nil_r.
    destruct (has_request mid (working c)); cbn; auto.
    destruct (has_user uid (working c)); cbn; auto.
  - exists []. now rewrite app_nil_r.
  - exists []. now rewrite app_nil_r.
  - exists []. now rewrite app_nil_r.
  - exists []. now rewrite app_nil_r.
Qed.

Lemma run_user_ids trace : forall c,
  well_formed c ->
  exists more,
    user_ids (working (run trace c)) = (user_ids (working c) ++ more)%list.
Proof.
  induction trace as [| e trace IH]; intros c Hc.
  - exists []. cbn. now rewrite app_nil_r.
  - cbn. destruct (do_call_user_ids (fst e) (snd e) c Hc) as [more1 E1].
    destruct (IH _ (do_call_well_formed (fst e) (snd e) c Hc)) as [more2 E2].
    exists (more1 ++ more2)%list. fold (run trace (snd (do_call (fst e) (snd e) c))).
    rewrite E2, E1. now rewrite app_assoc.
Qed.

Lemma run_app trace more c : run (trace ++ more) c = run more (run trace c).
Proof. unfold run. apply fold_left_app. Qed.

(** X4: no call removes a user: a user of the table in a state reached from
    the empty schema is a user after any further calls, in their order. *)
Theorem users_are_never_removed (trace more : list (timestamp * call))
    (uid : Z) :
  has_user uid (working (run trace connect)) = true ->
  has_user uid (working (run (trace ++ more) connect)) = true.
Proof.
  intros H. rewrite run_app.
  destruct (run_user_ids more (run trace connect)) as [ids E].
  - apply run_well_formed, connect_well_formed.
  - apply has_user_in. rewrite E. apply in_or_app. left. now apply has_user_in.
Qed.

Lemma users_are_never_removed_witness :
  has_user 42
    (working
       (run (scenario_fulfilled ++ [(50, RegisterRequest 7 true 1001)]) connect))
  = true.
Proof.
  apply (users_are_never_removed scenario_fulfilled
           [(50, RegisterRequest 7 true 1001)] 42).
  reflexivity.
Defined.

Lemma NoDup_map_eq {A B} (f : A -> B) (l : list A) x y :
  List.NoDup (map f l) -> In x l -> In y l -> f x = f y -> x = y.
Proof.
  induction l as [| a l IH]; cbn; [tauto |].
  intros [Ha Hl]%List.NoDup_cons_iff [-> | Hx] [-> | Hy] E; auto.
  - destruct Ha. rewrite E. now apply in_map.
  - destruct Ha. rewrite <- E. now apply in_map.
Qed.

Lemma same_request_refl r : same_request r r.
Proof. now repeat split. Qed.

(** The requests table after a call: the table before, or with the new
    pending row, or with some rows updated in their fulfillment columns, or
    without some rows. *)
Lemma do_call_requests now k c :
  well_formed c ->
  let after := requests (working (snd (do_call now k c))) in
  let before := requests (working c) in
  after = before
  \/ (exists uid eng mid,
        ~ In mid (message_ids (working c))
        /\ after
           = (before ++ [mk_request uid eng mid (Some now) None None None])%list)
  \/ (exists (set_ : request_row -> request_row) (where_ : request_row -> bool),
        (forall r, same_request r (set_ r))
        /\ after = map (fun r => if where_ r then set_ r else r) before)
  \/ (exists keep : request_row -> bool, after = List.filter keep before).
Proof.
  intros (H1 & _). cbn zeta. destruct k; cbn [do_call].
  - left. unfold add_user, try_except_finally, execute_write, sql_insert_user.
    destruct (has_user _ (working c)); cbn; auto.
  - left. reflexivity.
  - unfold register_request, try_except_finally, execute_write,
      sql_insert_request.
    destruct (has_request mid (working c)) eqn:Em; cbn; auto.
    destruct (has_user uid (working c)); cbn; auto.
    right. left. exists uid, eng, mid. split; [| reflexivity].
    now apply has_request_not_in.
  - right. right. left. eexists _, _. split; [| reflexivity].
    intros r. now repeat split.
  - right. right. left. eexists _, _. split; [| reflexivity].
    intros r. now repeat split.
  - right. right. left. eexists _, _. split; [| reflexivity].
    intros r. now repeat split.
  - right. right. right. eexists. reflexivity.
Qed.

(** X5: a call changes neither the [user_id], nor the [is_english], nor the
    [req_time] of a request: a row after the call with the [message_id] of a
    row before it has these as they were. *)
Theorem request_is_changed_in_fulfillment_only
    (trace : list (timestamp * call)) (now : timestamp) (k : call)
    (r r' : request_row) :
  In r (requests (working (run trace connect))) ->
  In r' (requests (working (snd (do_call now k (run trace connect))))) ->
  message_id r' = message_id r ->
  same_request r r'.
Proof.
  pose proof (run_well_formed trace connect connect_well_formed) as Hwf.
  set (c := run trace connect) in *.
  pose proof Hwf as (_ & _ & [_ Hkeys] & _).
  intros Hr Hr' E.
  destruct (do_call_requests now k c Hwf)
    as [Ea | [(uid & eng & mid & Hfresh & Ea)
       | [(set_ & where_ & Hset & Ea) | (keep & Ea)]]];
    rewrite Ea in Hr'; clear Ea.
  - rewrite (NoDup_map_eq message_id _ r' r Hkeys Hr' Hr E).
    apply same_request_refl.
  - apply in_app_or in Hr' as [Hr' | [<- | []]].
    + rewrite (NoDup_map_eq message_id _ r' r Hkeys Hr' Hr E).
      apply same_request_refl.
    + cbn in E. destruct Hfresh. rewrite E. now apply in_map.
  - apply in_map_iff in Hr' as (r0 & <- & Hr0).
    assert (message_id r0 = message_id r) as E0.
    { rewrite <- E. destruct (where_ r0); [| reflexivity].
      symmetry. apply Hset. }
    rewrite (NoDup_map_eq message_id _ r0 r Hkeys Hr0 Hr E0).
    destruct (where_ r); [apply Hset | apply same_request_refl].
  - apply filter_In in Hr' as [Hr' _].
    rewrite (NoDup_map_eq message_id _ r' r Hkeys Hr' Hr E).
    apply same_request_refl.
Qed.

Lemma request_is_changed_in_fulfillment_only_witness :
  same_request
    (mk_request 42 true 1001 (Some 20) (Some 2002) (Some 30) (Some 8))
    (mk_request 42 true 1001 (Some 20) None None None).
Proof.
  apply (request_is_changed_in_fulfillment_only scenario_fulfilled 50
           (MarkRequestNotDone 42 1001)).
  - left. reflexivity.
  - left. reflexivity.
  - reflexivity.
Defined.

(** ** A write, then a lookup *)

Lemma where_user_message_spec uid mid r :
  where_user_message uid mid r = true <-> is_request uid mid r.
Proof.
  unfold where_user_message, is_request.
  now rewrite andb_true_iff, !Z.eqb_eq.
Qed.

Lemma filter_where_absent uid mid db :
  has_request mid db = false ->
  List.filter (where_user_message uid mid) (requests db) = [].
Proof.
  intros H. apply filter_none, List.Forall_forall. intros r Hr.
  destruct (where_user_message uid mid r) eqn:E; [| reflexivity].
  apply where_user_message_spec in E as [_ E].
  apply has_request_not_in in H. destruct H. rewrite <- E.
  now apply in_map.
Qed.

(** X6: [register_request] for a user of the table and a [message_id] not
    yet used raises nothing and commits; [get_request] with the same ids then
    returns the new request, pending and opened at the time of the call. *)
Theorem register_request_then_get_request (now : timestamp) (uid : Z)
    (eng : bool) (mid : Z) (c : connection) :
  has_user uid (working c) = true ->
  has_request mid (working c) = false ->
  let c' := snd (register_request now uid eng mid c) in
  fst (register_request now uid eng mid c) = inr tt
  /\ committed c' = working c'
  /\ get_request uid mid c'
     = (inr (PyTuple [PyInt uid; PyBool eng; PyInt mid; PyDatetime now;
                      PyNone; PyNone]), c').
Proof.
  intros Hu Hm. rewrite (register_request_ok now uid eng mid c Hu Hm).
  cbn [fst snd]. repeat split.
  unfold get_request, bind, try_except_finally, execute_query, q_request.
  cbn [working requests]. rewrite List.filter_app, (filter_where_absent _ _ _ Hm).
  cbn. unfold where_user_message. cbn. now rewrite !Z.eqb_refl.
Qed.

Lemma register_request_then_get_request_witness :
  let c := run scenario_fulfilled connect in
  let c' := snd (register_request 50 42 false 1002 c) in
  fst (register_request 50 42 false 1002 c) = inr tt
  /\ committed c' = working c'
  /\ get_request 42 1002 c'
     = (inr (PyTuple [PyInt 42; PyBool false; PyInt 1002; PyDatetime 50;
                      PyNone; PyNone]), c').
Proof.
  apply (register_request_then_get_request 50 42 false 1002
           (run scenario_fulfilled connect)); reflexivity.
Defined.

Lemma add_user_ok uid name user_name c :
  has_user uid (working c) = false ->
  let db := mk_db (users (working c) ++ [mk_user uid name user_name])
              (requests (working c)) in
  add_user uid name user_name c = (inr tt, mk_conn db db).
Proof.
  intros Hu. unfold add_user, try_except_finally, execute_write,
    sql_insert_user. cbn [u_user_id]. now rewrite Hu.
Qed.

(** X7: [add_user] with an id that no user has raises nothing and commits;
    [get_user_details] then returns the id and the two names given, [None]
    for a name not given. *)
Theorem add_user_then_get_user_details (uid : Z)
    (name user_name : option string) (c : connection) :
  has_user uid (working c) = false ->
  let c' := snd (add_user uid name user_name c) in
  fst (add_user uid name user_name c) = inr tt
  /\ committed c' = working c'
  /\ get_user_details uid c' = (inr (user_details uid name user_name), c').
Proof.
  intros Hu. rewrite (add_user_ok uid name user_name c Hu).
  cbn [fst snd]. repeat split.
  unfold get_user_details, bind, try_except_finally, execute_query,
    q_user_details. cbn [working users].
  rewrite List.filter_app, (has_user_false _ _ Hu). cbn. rewrite Z.eqb_refl.
  reflexivity.
Qed.

Lemma add_user_then_get_user_details_witness :
  let c' := snd (add_user 42 (Some "Ann") None connect) in
  fst (add_user 42 (Some "Ann") None connect) = inr tt
  /\ committed c' = working c'
  /\ get_user_details 42 c' = (inr (user_details 42 (Some "Ann") None), c').
Proof.
  apply (add_user_then_get_user_details 42 (Some "Ann") None connect).
  reflexivity.
Defined.

(** X8: [add_user] with the id of a user of the table raises the
    unique-violation error and changes no row: the connection is left at
    what was committed. *)
Theorem add_user_twice (uid : Z) (name user_name : option string)
    (c : connection) :
  has_user uid (working c) = true ->
  add_user uid name user_name c = (inl UniqueViolation, rollback c).
Proof.
  intros Hu. unfold add_user, try_except_finally, execute_write,
    sql_insert_user. cbn [u_user_id]. now rewrite Hu.
Qed.

Lemma add_user_twice_witness :
  add_user 42 None None (run scenario_fulfilled connect)
  = (inl UniqueViolation, rollback (run scenario_fulfilled connect)).
Proof.
  apply (add_user_twice 42 None None (run scenario_fulfilled connect)).
  reflexivity.
Defined.

Lemma filter_map_update_user uid name username us :
  List.filter (fun u => u_user_id u =? uid)
    (map (fun u => if u_user_id u =? uid
                   then mk_user (u_user_id u) name username else u) us)
  = map (fun u => mk_user (u_user_id u) name username)
      (List.filter (fun u => u_user_id u =? uid) us).
Proof.
  induction us as [| u us IH]; cbn; [reflexivity |].
  destruct (u_user_id u =? uid) eqn:E; cbn; rewrite E; cbn; now rewrite IH.
Qed.

Lemma update_user_ok uid name username c :
  update_user uid name username c
  = (inr tt,
     mk_conn (committed c)
       (mk_db
          (map (fun u => if u_user_id u =? uid
                         then mk_user (u_user_id u) name username else u)
             (users (working c)))
          (requests (working c)))).
Proof. reflexivity. Qed.

(** X9: [update_user] of a user of the table raises nothing;
    [get_user_details] then returns the two names given; nothing is
    committed by the call. *)
Theorem update_user_then_get_user_details (uid : Z)
    (name username : option string) (c : connection) :
  has_user uid (working c) = true ->
  let c' := snd (update_user uid name username c) in
  fst (update_user uid name username c) = inr tt
  /\ committed c' = committed c
  /\ get_user_details uid c' = (inr (user_details uid name username), c').
Proof.
  intros (u & rest & E & Hu)%has_user_true. rewrite update_user_ok.
  cbn [fst snd committed]. repeat split.
  unfold get_user_details, bind, try_except_finally, execute_query,
    q_user_details. cbn [working users].
  rewrite filter_map_update_user, E. cbn. now rewrite Hu.
Qed.

Lemma update_user_then_get_user_details_witness :
  let c := run scenario_fulfilled connect in
  let c' := snd (update_user 42 None (Some "ann") c) in
  fst (update_user 42 None (Some "ann") c) = inr tt
  /\ committed c' = committed c
  /\ get_user_details 42 c' = (inr (user_details 42 None (Some "ann")), c').
Proof.
  apply (update_user_then_get_user_details 42 None (Some "ann")
           (run scenario_fulfilled connect)).
  reflexivity.
Defined.

(** X10: [update_user] with an id that no user has raises nothing and
    changes nothing. *)
Theorem update_user_of_absent_user (uid : Z) (name username : option string)
    (c : connection) :
  has_user uid (working c) = false ->
  update_user uid name username c = (inr tt, c).
Proof.
  intros Hu. unfold update_user, try_except_finally, execute_write,
    sql_update_user, close_only. f_equal.
  destruct c as [cm [us rs]]. cbn in *. do 2 f_equal.
  unfold has_user in Hu. cbn in Hu.
  induction us as [| u us IH]; cbn in *; [reflexivity |].
  apply orb_false_iff in Hu as [Hu Hus]. rewrite Hu. f_equal. auto.
Qed.

Lemma update_user_of_absent_user_witness :
  update_user 7 (Some "Bob") None (run scenario_fulfilled connect)
  = (inr tt, run scenario_fulfilled connect).
Proof.
  apply (update_user_of_absent_user 7 (Some "Bob") None
           (run scenario_fulfilled connect)).
  reflexivity.
Defined.

(** X11: [delete_request] raises nothing, whether the request exists or not;
    it removes the requests with the given [message_id] and no other row, and
    [get_request] with that [message_id] then returns the tuple of six
    [None]. *)
Theorem delete_request_then_get_request (mid : Z) (c : connection) :
  let c' := snd (delete_request mid c) in
  fst (delete_request mid c) = inr tt
  /\ users (working c') = users (working c)
  /\ (forall r, In r (requests (working c'))
                <-> In r (requests (working c)) /\ message_id r <> mid)
  /\ forall uid, get_request uid mid c' = (inr (none_tuple 6), c').
Proof.
  cbn. repeat split.
  - now apply filter_In in H.
  - apply filter_In in H as [_ H]. apply negb_true_iff in H.
    now apply Z.eqb_neq.
  - intros [H1 H2]. apply filter_In. split; [assumption |].
    apply negb_true_iff. now apply Z.eqb_neq.
  - intros uid. unfold get_request, bind, try_except_finally, execute_query,
      q_request. cbn [working requests]. rewrite filter_none; [reflexivity |].
    apply List.Forall_forall. intros r [_ Hr]%filter_In.
    unfold where_user_message. apply negb_true_iff in Hr. rewrite Hr.
    apply andb_false_r.
Qed.

(** ** Fulfilling and reverting *)

Lemma update_requests_Forall2 (R : request_row -> request_row -> Prop)
    set_ (where_ : request_row -> bool) rs :
  (forall r, where_ r = true -> R r (set_ r)) ->
  (forall r, where_ r = false -> R r r) ->
  Forall2 R rs (map (fun r => if where_ r then set_ r else r) rs).
Proof.
  intros Hset Hkeep. induction rs as [| r rs IH]; cbn; constructor; auto.
  destruct (where_ r) eqn:E; auto.
Qed.

Lemma where_user_message_false uid mid r :
  where_user_message uid mid r = false <-> ~ is_request uid mid r.
Proof.
  rewrite <- where_user_message_spec.
  destruct (where_user_message uid mid r); split; congruence.
Qed.

(** X12: [register_request_fulfillment] raises nothing and commits; it leaves
    the users as they were and maps every request to a request with the same
    [user_id], [is_english], [message_id] and [req_time]: the request with
    the given [user_id] and [message_id] gets the given [fulfill_id], the
    time of the call and the given [fulfilled_by], any other request is
    unchanged. *)
Theorem register_request_fulfillment_frame (now : timestamp) (uid mid : Z)
    (fid fby : option Z) (c : connection) :
  let c' := snd (register_request_fulfillment now uid mid fid fby c) in
  fst (register_request_fulfillment now uid mid fid fby c) = inr tt
  /\ committed c' = working c'
  /\ users (working c') = users (working c)
  /\ Forall2
       (fun r r' =>
          same_request r r'
          /\ (is_request uid mid r ->
              fulfill_message_id r' = fid /\ fulfill_time r' = Some now
              /\ fulfilled_by r' = fby)
          /\ (~ is_request uid mid r -> r' = r))
       (requests (working c)) (requests (working c')).
Proof.
  cbn zeta. split; [reflexivity |]. split; [reflexivity |].
  split; [reflexivity |].
  apply update_requests_Forall2; intros r Hr.
  - apply where_user_message_spec in Hr. repeat split; tauto.
  - apply where_user_message_false in Hr. repeat split; tauto.
Qed.

(** X13: [mark_request_not_done] raises nothing and commits; it leaves the
    users as they were, makes the request with the given [user_id] and
    [message_id] pending, all three fulfillment columns null, and leaves any
    other request unchanged. *)
Theorem mark_request_not_done_frame (uid mid : Z) (c : connection) :
  let c' := snd (mark_request_not_done uid mid c) in
  fst (mark_request_not_done uid mid c) = inr tt
  /\ committed c' = working c'
  /\ users (working c') = users (working c)
  /\ Forall2
       (fun r r' =>
          same_request r r'
          /\ (is_request uid mid r -> pending r')
          /\ (~ is_request uid mid r -> r' = r))
       (requests (working c)) (requests (working c')).
Proof.
  cbn zeta. split; [reflexivity |]. split; [reflexivity |].
  split; [reflexivity |].
  apply update_requests_Forall2; intros r Hr.
  - apply where_user_message_spec in Hr. repeat split; tauto.
  - apply where_user_message_false in Hr. repeat split; tauto.
Qed.

(** X14: fulfilling a pending request and then marking it not done gives
    back the requests table as it was. *)
Theorem fulfill_then_revert (now : timestamp) (uid mid : Z)
    (fid fby : option Z) (c : connection) :
  (forall r, In r (requests (working c)) -> is_request uid mid r -> pending r) ->
  requests
    (working
       (snd (mark_request_not_done uid mid
               (snd (register_request_fulfillment now uid mid fid fby c)))))
  = requests (working c).
Proof.
  intros Hpending. cbn. rewrite map_map.
  rewrite <- (map_id (requests (working c))) at 2.
  apply map_ext_in. intros r Hr.
  destruct (where_user_message uid mid r) eqn:E.
  - unfold where_user_message in *. cbn. rewrite E.
    apply where_user_message_spec in E.
    destruct (Hpending r Hr E) as (H1 & H2 & H3). destruct r. cbn in *.
    now subst.
  - now rewrite E.
Qed.

Lemma fulfill_then_revert_witness :
  let c := snd (register_request 20 42 true 1001
                  (snd (add_user 42 (Some "Ann") None connect))) in
  requests
    (working
       (snd (mark_request_not_done 42 1001
               (snd (register_request_fulfillment 30 42 1001 (Some 2002)
                       (Some 7) c)))))
  = requests (working c).
Proof.
  apply (fulfill_then_revert 30 42 1001 (Some 2002) (Some 7)).
  intros r [<- | []] _. now repeat split.
Defined.

(** ** The lists of requests *)

Lemma fetch_loop6_rows rs : forall acc,
  fetch_loop6 (map request_tuple6 rs) acc
  = inr (acc ++ map request_row6 rs)%list.
Proof.
  induction rs as [| r rs IH]; intros acc; cbn.
  - now rewrite app_nil_r.
  - rewrite IH, <- app_assoc. reflexivity.
Qed.

Lemma fetch_loop4_rows rs : forall acc,
  fetch_loop4 (map request_tuple4 rs) acc
  = inr (acc ++ map request_row4 rs)%list.
Proof.
  induction rs as [| r rs IH]; intros acc; cbn.
  - now rewrite app_nil_r.
  - rewrite IH, <- app_assoc. reflexivity.
Qed.

Lemma fetch_body6_rows q rs c :
  q (working c) = map request_tuple6 rs ->
  fetch_body6 q c = (inr (map request_row6 rs), c).
Proof.
  intros Hq. unfold fetch_body6, bind, execute_query.
  now rewrite Hq, fetch_loop6_rows.
Qed.

(** X15: [get_requests] raises nothing, leaves the connection as it was and
    returns the dicts of the requests of the table, each once and no other,
    in the order in which the query yields them: the test for the sentinel
    ends the loop at no row. *)
Theorem get_requests_all (c : connection) :
  exists rows,
    get_requests c = (inr (map request_dict rows), c)
    /\ Permutation rows (requests (working c)).
Proof.
  exists (requests (working c)). split; [| reflexivity].
  unfold get_requests, bind, try_except_finally, close_only.
  rewrite (fetch_body6_rows _ (requests (working c))); [| reflexivity].
  unfold ret. now rewrite map_map.
Qed.

(** X16: [get_user_requests] raises nothing, leaves the connection as it was
    and returns the dicts of the requests of the user, each once and no
    other, by ascending [message_id]. *)
Theorem get_user_requests_sorted (uid : Z) (c : connection) :
  exists rows,
    get_user_requests uid c = (inr (map request_dict rows), c)
    /\ Permutation rows
         (List.filter (fun r => user_id r =? uid) (requests (working c)))
    /\ StronglySorted (fun a b => message_id a <= message_id b) rows.
Proof.
  set (le := fun a b : request_row => message_id a <=? message_id b).
  set (rs := List.filter (fun r => user_id r =? uid) (requests (working c))).
  exists (order_by le rs). split; [| split].
  - unfold get_user_requests, bind, try_except_finally, close_only.
    rewrite (fetch_body6_rows _ (order_by le rs)); [| reflexivity].
    unfold ret. now rewrite map_map.
  - apply order_by_perm.
  - apply StronglySorted_impl with (R := fun a b => le a b = true).
    + intros a b. apply Z.leb_le.
    + apply order_by_strongly_sorted.
      * intros a b. unfold le. rewrite !Z.leb_le. lia.
      * intros a b d. unfold le. rewrite !Z.leb_le. lia.
Qed.

(** X17: [get_pending_requests] raises nothing, leaves the connection as it
    was and returns the dicts of the requests without a [fulfill_time], each
    once and no other, by ascending [req_time], a request without a
    [req_time] after the others. *)
Theorem get_pending_requests_sorted (c : connection) :
  exists rows,
    get_pending_requests c = (inr (map pending_dict rows), c)
    /\ Permutation rows
         (List.filter (fun r => negb (is_fulfilled_col r))
            (requests (working c)))
    /\ StronglySorted
         (fun a b => le_nulls_last (req_time a) (req_time b) = true) rows.
Proof.
  set (le := fun a b : request_row => le_nulls_last (req_time a) (req_time b)).
  set (rs := List.filter (fun r => negb (is_fulfilled_col r))
               (requests (working c))).
  exists (order_by le rs). split; [| split].
  - unfold get_pending_requests, bind, try_except_finally, close_only,
      execute_query, q_pending_requests.
    fold rs. fold le. rewrite fetch_loop4_rows. unfold ret. cbn [app].
    now rewrite map_map.
  - apply order_by_perm.
  - apply order_by_strongly_sorted.
    + intros a b. apply le_nulls_last_total.
    + intros a b d. apply le_nulls_last_trans.
Qed.

(** X18: when some request has a [fulfill_time], [get_latest_fulfilled]
    returns the dict of a request whose [fulfill_time] no other is after, and
    leaves the connection as it was. *)
Theorem get_latest_fulfilled_is_latest (c : connection) :
  (exists r0, In r0 (requests (working c)) /\ fulfill_time r0 <> None) ->
  exists r t,
    In r (requests (working c))
    /\ fulfill_time r = Some t
    /\ get_latest_fulfilled c = (inr (fulfilled_dict r), c)
    /\ forall r' t', In r' (requests (working c)) ->
         fulfill_time r' = Some t' -> t' <= t.
Proof.
  intros (r0 & Hr0 & Hf0).
  destruct (limit_1_order_by
              (fun a b => le_nulls_last (fulfill_time b) (fulfill_time a))
              (fun a b => le_nulls_last_total _ _)
              (fun a b d H1 H2 => le_nulls_last_trans _ _ _ H2 H1)
              (List.filter is_fulfilled_col (requests (working c))))
    as [[Hnil _] | (r & Hr & Hin & Hmax)].
  - assert (In r0 []) as [].
    rewrite <- Hnil. apply filter_In. split; [assumption |].
    unfold is_fulfilled_col. now destruct (fulfill_time r0).
  - apply filter_In in Hin as [Hin Hf]. unfold is_fulfilled_col in Hf.
    destruct (fulfill_time r) as [t |] eqn:Et; [| discriminate].
    exists r, t. repeat split; auto.
    + unfold get_latest_fulfilled, bind, try_except_finally, execute_query,
        q_latest_fulfilled. rewrite Hr. reflexivity.
    + intros r' t' Hr' Et'.
      assert (In r' (List.filter is_fulfilled_col (requests (working c))))
        as Hin'.
      { apply filter_In. split; [assumption |]. unfold is_fulfilled_col.
        now rewrite Et'. }
      specialize (Hmax r' Hin'). rewrite Et' in Hmax.
      now apply Z.leb_le.
Qed.

Lemma get_latest_fulfilled_is_latest_witness :
  exists r t,
    In r (requests (working (run scenario_fulfilled connect)))
    /\ fulfill_time r = Some t
    /\ get_latest_fulfilled (run scenario_fulfilled connect)
       = (inr (fulfilled_dict r), run scenario_fulfilled connect)
    /\ forall r' t', In r' (requests (working (run scenario_fulfilled connect))) ->
         fulfill_time r' = Some t' -> t' <= t.
Proof.
  apply (get_latest_fulfilled_is_latest (run scenario_fulfilled connect)).
  eexists. split; [left; reflexivity | discriminate].
Defined.

(** X19: for a user with a request, [get_user_last_request] returns the dict
    of the request of the user with the greatest [message_id], and leaves the
    connection as it was. *)
Theorem get_user_last_request_is_last (uid : Z) (c : connection) :
  (exists r0, In r0 (requests (working c)) /\ user_id r0 = uid) ->
  exists r,
    In r (requests (working c))
    /\ user_id r = uid
    /\ get_user_last_request uid c = (inr (request_dict r), c)
    /\ forall r', In r' (requests (working c)) -> user_id r' = uid ->
         message_id r' <= message_id r.
Proof.
  intros (r0 & Hr0 & Hu0).
  destruct (limit_1_order_by
              (fun a b : request_row => message_id b <=? message_id a)
              (fun a b => ltac:(rewrite !Z.leb_le; lia))
              (fun a b d => ltac:(rewrite !Z.leb_le; lia))
              (List.filter (fun r => user_id r =? uid) (requests (working c))))
    as [[Hnil _] | (r & Hr & Hin & Hmax)].
  - assert (In r0 []) as [].
    rewrite <- Hnil. apply filter_In. split; [assumption |].
    now apply Z.eqb_eq.
  - apply filter_In in Hin as [Hin Hu]. apply Z.eqb_eq in Hu.
    exists r. repeat split; auto.
    + unfold get_user_last_request, bind, try_except_finally, execute_query,
        q_user_last_request. rewrite Hr. reflexivity.
    + intros r' Hr' Hu'. apply Z.leb_le. apply Hmax.
      apply filter_In. split; [assumption | now apply Z.eqb_eq].
Qed.

Lemma get_user_last_request_is_last_witness :
  exists r,
    In r (requests (working (run scenario_fulfilled connect)))
    /\ user_id r = 42
    /\ get_user_last_request 42 (run scenario_fulfilled connect)
       = (inr (request_dict r), run scenario_fulfilled connect)
    /\ forall r', In r' (requests (working (run scenario_fulfilled connect))) ->
         user_id r' = 42 -> message_id r' <= message_id r.
Proof.
  apply (get_user_last_request_is_last 42 (run scenario_fulfilled connect)).
  eexists. split; [left; reflexivity | reflexivity].
Defined.

(** ** Statistics, again *)

(** X20: the four numbers of [get_user_stats] are, in this order, the numbers
    of the user's requests that are English and fulfilled, not English and
    fulfilled, English and pending, not English and pending, a request being
    fulfilled when it has a [fulfill_time]; those of [get_global_stats] are
    the same numbers over all the requests.  Both leave the connection as it
    was. *)
Theorem stats_are_the_four_counts (uid : Z) (c : connection) :
  let mine := List.filter (fun r => user_id r =? uid) (requests (working c)) in
  let all := requests (working c) in
  get_user_stats uid c
  = (inr (PyTuple [PyInt (bucket true true mine);
                   PyInt (bucket false true mine);
                   PyInt (bucket true false mine);
                   PyInt (bucket false false mine)]), c)
  /\ get_global_stats c
     = (inr (PyTuple [PyInt (bucket true true all);
                      PyInt (bucket false true all);
                      PyInt (bucket true false all);
                      PyInt (bucket false false all)]), c).
Proof.
  cbn zeta. split.
  - unfold get_user_stats, try_except_finally, close_only.
    now rewrite (stats_body_buckets _
                   (List.filter (fun r => user_id r =? uid)
                      (requests (working c)))).
  - unfold get_global_stats, try_except_finally, close_only.
    now rewrite (stats_body_buckets _ (requests (working c))).
Qed.

(** ** Dicts built in a loop *)

Section FoldInsert.
Context `{Countable K} {V A : Type} (key : A -> K) (val : A -> V).

(** A dict filled in the order of [l]: a key has the value of the last
    element that gave it. *)
Lemma fold_insert_lookup (l : list A) (d0 : gmap K V) (k : K) :
  fold_left (fun d a => <[key a := val a]> d) l d0 !! k
  = match List.find (fun a => bool_decide (key a = k)) (rev l) with
    | Some a => Some (val a)
    | None => d0 !! k
    end.
Proof using Type.
  rewrite <- fold_left_rev_right.
  induction (rev l) as [| a l' IH]; cbn; [reflexivity |].
  case_bool_decide as E.
  - rewrite E. apply lookup_insert_eq.
  - rewrite lookup_insert_ne; auto.
Qed.

(** Where no two elements give the same key, it is the value of the one
    element that gave it. *)
Lemma fold_insert_lookup_unique (l : list A) (d0 : gmap K V) (a : A) :
  List.NoDup (map key l) -> In a l ->
  fold_left (fun d a => <[key a := val a]> d) l d0 !! key a = Some (val a).
Proof using Type.
  intros Hnd Ha. rewrite fold_insert_lookup.
  destruct (List.find _ (rev l)) as [a' |] eqn:E.
  - apply find_some in E as [Ha' E]. apply bool_decide_eq_true in E.
    apply in_rev in Ha'.
    now rewrite (NoDup_map_eq key l a' a Hnd Ha' Ha E).
  - apply find_none with (x := a) in E; [| now apply in_rev in Ha].
    apply bool_decide_eq_false in E. congruence.
Qed.

Lemma fold_insert_lookup_none (l : list A) (d0 : gmap K V) (k : K) :
  ~ In k (map key l) ->
  fold_left (fun d a => <[key a := val a]> d) l d0 !! k = d0 !! k.
Proof using Type.
  intros Hk. rewrite fold_insert_lookup.
  destruct (List.find _ (rev l)) as [a' |] eqn:E; [| reflexivity].
  apply find_some in E as [Ha' E]. apply bool_decide_eq_true in E.
  destruct Hk. rewrite <- E. apply in_map. now apply in_rev.
Qed.
End FoldInsert.

(** X21: [get_users] raises nothing and leaves the connection as it was; in
    the dict it returns, the id of a user of a table with unique ids has the
    dict of the two names of that user, and an id that no user has is no
    key. *)
Theorem get_users_lookup (c : connection) :
  List.NoDup (map u_user_id (users (working c))) ->
  exists d : gmap Z pyval,
    get_users c = (inr d, c)
    /\ (forall u, In u (users (working c)) ->
          d !! u_user_id u
          = Some (user_dict (opt_str (u_name u)) (opt_str (u_user_name u))))
    /\ (forall uid, has_user uid (working c) = false -> d !! uid = None).
Proof.
  intros Hnd. eexists. split; [reflexivity |]. split.
  - intros u Hu. unfold q_users.
    pose proof (fold_insert_lookup_unique
                  (fun res : Z * (pyval * pyval) => fst res)
                  (fun res => user_dict (fst (snd res)) (snd (snd res)))
                  (q_users (working c)) ∅
                  (u_user_id u, (opt_str (u_name u), opt_str (u_user_name u))))
      as Hlookup.
    cbn [fst snd] in Hlookup. apply Hlookup.
    + unfold q_users. rewrite map_map. exact Hnd.
    + unfold q_users. apply in_map_iff. eauto.
  - intros uid Hu.
    rewrite (fold_insert_lookup_none
               (fun res : Z * (pyval * pyval) => fst res)
               (fun res => user_dict (fst (snd res)) (snd (snd res)))).
    + apply lookup_empty.
    + unfold q_users. rewrite map_map. cbn [fst].
      now apply has_user_not_in.
Qed.

Lemma get_users_lookup_witness :
  exists d : gmap Z pyval,
    get_users (run scenario_fulfilled connect)
    = (inr d, run scenario_fulfilled connect)
    /\ (forall u, In u (users (working (run scenario_fulfilled connect))) ->
          d !! u_user_id u
          = Some (user_dict (opt_str (u_name u)) (opt_str (u_user_name u))))
    /\ (forall uid,
          has_user uid (working (run scenario_fulfilled connect)) = false ->
          d !! uid = None).
Proof.
  apply (get_users_lookup (run scenario_fulfilled connect)).
  cbn. repeat constructor. intros [].
Defined.

(** X22: [get_weekly_stats] raises nothing and commits; where the weeks have
    labels that differ, the dict it returns has for the label of each week
    the number of the requests with a [req_time] and the number of those
    with a [fulfill_time] from the start of the week to the day after its
    end, and has no other key. *)
Theorem get_weekly_stats_lookup
    (weeks : list (timestamp * timestamp * string)) (c : connection) :
  List.NoDup (map snd weeks) ->
  exists d : gmap string (Z * Z),
    get_weekly_stats weeks c = (inr d, commit c)
    /\ (forall week_start week_end week_number,
          In (week_start, week_end, week_number) weeks ->
          d !! week_number
          = Some (q_count_req_time week_start (week_end + one_day) (working c),
                  q_count_fulfill_time week_start (week_end + one_day)
                    (working c)))
    /\ (forall label, ~ In label (map snd weeks) -> d !! label = None).
Proof.
  intros Hnd. rewrite get_weekly_stats_fold. eexists.
  split; [reflexivity |]. split.
  - intros week_start week_end week_number Hin.
    apply (fold_insert_lookup_unique
             (fun w : timestamp * timestamp * string => snd w)
             (fun w => week_counts (working c) (fst (fst w)) (snd (fst w)))
             weeks ∅ (week_start, week_end, week_number) Hnd Hin).
  - intros label Hlabel.
    rewrite (fold_insert_lookup_none
               (fun w : timestamp * timestamp * string => snd w)
               (fun w => week_counts (working c) (fst (fst w)) (snd (fst w))));
      [apply lookup_empty | assumption].
Qed.

Lemma get_weekly_stats_lookup_witness :
  exists d : gmap string (Z * Z),
    get_weekly_stats [week_1; week_2] scenario_week
    = (inr d, commit scenario_week)
    /\ (forall week_start week_end week_number,
          In (week_start, week_end, week_number) [week_1; week_2] ->
          d !! week_number
          = Some (q_count_req_time week_start (week_end + one_day)
                    (working scenario_week),
                  q_count_fulfill_time week_start (week_end + one_day)
                    (working scenario_week)))
    /\ (forall label, ~ In label (map snd [week_1; week_2]) ->
          d !! label = None).
Proof.
  apply (get_weekly_stats_lookup [week_1; week_2] scenario_week).
  cbn. repeat constructor; cbn; intuition discriminate.
Defined.

(** X23: for a user of a table with unique ids, [get_user_details] returns
    the id and the two names of that user and leaves the connection as it
    was. *)
Theorem get_user_details_of_user (u : user_row) (c : connection) :
  List.NoDup (map u_user_id (users (working c))) ->
  In u (users (working c)) ->
  get_user_details (u_user_id u) c
  = (inr (user_details (u_user_id u) (u_name u) (u_user_name u)), c).
Proof.
  intros Hnd Hu.
  destruct (has_user_true (u_user_id u) (working c))
    as (u' & rest & E & Hid).
  { apply has_user_in. unfold user_ids. now apply in_map. }
  assert (In u' (users (working c))) as Hu'.
  { assert (In u' (u' :: rest)) as H by now left.
    rewrite <- E in H. now apply filter_In in H. }
  rewrite (NoDup_map_eq u_user_id _ u' u Hnd Hu' Hu Hid) in E.
  unfold get_user_details, bind, try_except_finally, execute_query,
    q_user_details. now rewrite E.
Qed.

Lemma get_user_details_of_user_witness :
  get_user_details 42 (run scenario_fulfilled connect)
  = (inr (user_details 42 (Some "Ann") None), run scenario_fulfilled connect).
Proof.
  apply (get_user_details_of_user (mk_user 42 (Some "Ann") None)
           (run scenario_fulfilled connect)).
  - cbn. repeat constructor. intros [].
  - left. reflexivity.
Defined.

(** ** What the backup writes *)

Lemma seconds_of_day t : t mod one_day / 1000000 = t / 1000000 mod 86400.
Proof.
  unfold one_day. change (86400 * 1000000) with 86400000000.
  Z.div_mod_to_equations. lia.
Qed.

Lemma dt_date_of_seconds t : dt_date t = civil_from_days (t / 1000000 / 86400).
Proof.
  unfold dt_date, one_day. f_equal.
  rewrite Z.div_div by lia. f_equal.
Qed.

Lemma dt_hour_of_seconds t : dt_hour t = t / 1000000 mod 86400 / 3600.
Proof.
  unfold dt_hour. rewrite <- seconds_of_day, Z.div_div by lia. reflexivity.
Qed.

Lemma dt_minute_of_seconds t :
  dt_minute t = t / 1000000 mod 86400 / 60 mod 60.
Proof.
  unfold dt_minute. rewrite <- seconds_of_day, Z.div_div by lia. reflexivity.
Qed.

Lemma dt_second_of_seconds t : dt_second t = t / 1000000 mod 86400 mod 60.
Proof. unfold dt_second. now rewrite seconds_of_day. Qed.

(** X24: [format_data] writes two timestamps of the same second as the same
    text: the microseconds of a timestamp are not in the backup. *)
Theorem format_data_same_second (t1 t2 : timestamp) :
  t1 / 1000000 = t2 / 1000000 ->
  format_data (PyDatetime t1) = format_data (PyDatetime t2).
Proof.
  intros H. cbn [format_data]. unfold strftime_sql.
  rewrite !dt_date_of_seconds, !dt_hour_of_seconds, !dt_minute_of_seconds,
    !dt_second_of_seconds, H.
  reflexivity.
Qed.

Lemma format_data_same_second_witness :
  format_data (PyDatetime (datetime 2024 1 3 10 0 5 0))
  = format_data (PyDatetime (datetime 2024 1 3 10 0 5 999999)).
Proof.
  apply (format_data_same_second (datetime 2024 1 3 10 0 5 0)
           (datetime 2024 1 3 10 0 5 999999)).
  reflexivity.
Defined.

Lemma plain_text_no_quote s : plain_text s = true -> contains single_quote s = false.
Proof.
  induction s as [| ch s IH]; cbn; [reflexivity |].
  unfold plain_char. rewrite !andb_true_iff, !negb_true_iff.
  intros [[[_ Hq] _] Hs]. now rewrite Hq, IH.
Qed.

Lemma repr_char_plain ch :
  plain_char ch = true -> repr_char single_quote ch = String ch "".
Proof.
  unfold plain_char, repr_char. rewrite !andb_true_iff, !negb_true_iff.
  intros [[Hp Hq] Hb]. rewrite Hq, Hb, Hp. cbn [orb].
  unfold printable in Hp.
  destruct (N.eqb_spec (N_of_ascii ch) 9) as [E |]; [now rewrite E in Hp |].
  destruct (N.eqb_spec (N_of_ascii ch) 10) as [E |]; [now rewrite E in Hp |].
  destruct (N.eqb_spec (N_of_ascii ch) 13) as [E |]; [now rewrite E in Hp |].
  reflexivity.
Qed.

Lemma repr_chars_plain s :
  plain_text s = true -> repr_chars single_quote s = s.
Proof.
  induction s as [| ch s IH]; cbn; [reflexivity |].
  intros [Hch Hs]%andb_true_iff. now rewrite repr_char_plain, IH.
Qed.

(** X25: [format_data] writes a text of printable characters without
    apostrophe and without backslash as it is, between single quotes. *)
Theorem format_data_plain_text (s : string) :
  plain_text s = true ->
  format_data (PyStr s) = String single_quote (s +:+ String single_quote "").
Proof.
  intros H. cbn [format_data repr]. unfold repr_str.
  rewrite (plain_text_no_quote s H). cbn [andb].
  now rewrite repr_chars_plain.
Qed.

Lemma format_data_plain_text_witness :
  format_data (PyStr "Ann B.") = "'Ann B.'".
Proof. apply (format_data_plain_text "Ann B."). reflexivity. Defined.

(** ** Links *)

Lemma not_a_link_spec e : not_a_link e = false <-> is_link e.
Proof.
  unfold not_a_link, is_link. rewrite negb_false_iff. cbn.
  rewrite orb_false_r, orb_true_iff, !String.eqb_eq. reflexivity.
Qed.

Lemma has_link_loop_spec es : forall return_value,
  has_link_loop es return_value = true
  <-> return_value = true \/ exists e, In e es /\ is_link e.
Proof.
  induction es as [| e es IH]; intros return_value; cbn.
  - split; [auto | intros [H | (e & [] & _)]; exact H].
  - destruct (not_a_link e) eqn:E; rewrite IH.
    + split.
      * intros [H | (e' & He' & Hl)]; eauto.
      * intros [H | (e' & [<- | He'] & Hl)]; eauto.
        apply not_a_link_spec in Hl. congruence.
    + apply not_a_link_spec in E. split; [| auto]. intros _. eauto.
Qed.

(** X26: [has_link] is true exactly for a message with entities one of
    which has the type [url] or [text_link], wherever it stands among them;
    it is false for a message without entities. *)
Theorem has_link_spec (m : message) :
  has_link m = true
  <-> exists es e, entities m = Some es /\ In e es /\ is_link e.
Proof.
  unfold has_link. destruct (entities m) as [es |].
  - rewrite has_link_loop_spec. split.
    + intros [H | (e & He & Hl)]; [discriminate | eauto].
    + intros (es' & e & [= <-] & He & Hl). eauto.
  - split; [discriminate | intros (es & e & H & _); discriminate].
Qed.

(** ** The leaderboard, again *)

Section GroupSum.
Context {K : Type} (eqb : K -> K -> bool).
Hypothesis eqb_spec : forall a b, eqb a b = true <-> a = b.

Lemma sum_indicator ks x :
  List.NoDup ks -> In x ks ->
  fold_right Z.add 0 (map (fun k => if eqb k x then 1 else 0) ks) = 1.
Proof using eqb_spec.
  induction ks as [| k ks IH]; cbn; [tauto |].
  intros [Hk Hks]%List.NoDup_cons_iff [-> | Hx].
  - rewrite (proj2 (eqb_spec x x) eq_refl).
    assert (fold_right Z.add 0 (map (fun k => if eqb k x then 1 else 0) ks) = 0)
      as ->; [| reflexivity].
    clear IH Hks. induction ks as [| k ks IH]; cbn; [reflexivity |].
    destruct (eqb k x) eqn:E.
    + apply eqb_spec in E as ->. destruct Hk. now left.
    + rewrite IH; [reflexivity |]. intros H. apply Hk. now right.
  - destruct (eqb k x) eqn:E.
    + apply eqb_spec in E as ->. contradiction.
    + now rewrite IH.
Qed.

(** The sizes of the groups add up to the number of the rows. *)
Lemma sum_count_keys ks l :
  List.NoDup ks -> (forall x, In x l -> In x ks) ->
  fold_right Z.add 0 (map (fun k => count_key eqb k l) ks)
  = Z.of_nat (length l).
Proof using eqb_spec.
  intros Hks. induction l as [| x l IH]; intros Hl.
  - unfold count_key. cbn. induction ks as [| k ks IHk]; cbn; [reflexivity |].
    apply List.NoDup_cons_iff in Hks as [_ Hks]. now rewrite IHk.
  - assert (fold_right Z.add 0 (map (fun k => count_key eqb k (x :: l)) ks)
            = fold_right Z.add 0 (map (fun k => if eqb k x then 1 else 0) ks)
              + fold_right Z.add 0 (map (fun k => count_key eqb k l) ks))
      as ->.
    { clear. induction ks as [| k ks IHk]; cbn [map fold_right]; [reflexivity |].
      rewrite IHk. unfold count_key. cbn [List.filter].
      destruct (eqb k x); cbn [length]; lia. }
    rewrite sum_indicator, IH; auto.
    + cbn [length]. lia.
    + intros y Hy. apply Hl. now right.
    + apply Hl. now left.
Qed.

Lemma sum_group_count l :
  fold_right Z.add 0 (map snd (group_count eqb l)) = Z.of_nat (length l).
Proof using eqb_spec.
  unfold group_count. rewrite map_map. cbn [snd].
  apply sum_count_keys.
  - now apply group_keys_nodup.
  - intros x Hx. now apply group_keys_in.
Qed.
End GroupSum.

Lemma sum_perm l l' :
  Permutation l l' -> fold_right Z.add 0 l = fold_right Z.add 0 l'.
Proof. induction 1; cbn; lia. Qed.

Lemma fulfillers_length db :
  length (fulfillers db) = length (List.filter has_fulfiller (requests db)).
Proof.
  unfold fulfillers, has_fulfiller.
  induction (requests db) as [| r rs IH]; cbn; [reflexivity |].
  destruct (fulfilled_by r); cbn; now rewrite IH.
Qed.

(** X27: the counts of the rows of [get_leaderboard] add up to the number of
    the requests that have a [fulfilled_by]. *)
Theorem leaderboard_counts_add_up (c : connection) :
  exists pairs : list (Z * Z),
    get_leaderboard c = (inr (map leaderboard_row pairs), commit c)
    /\ sum_counts pairs
       = Z.of_nat (length (List.filter has_fulfiller (requests (working c)))).
Proof.
  eexists. split; [reflexivity |]. unfold sum_counts.
  rewrite (sum_perm _ (map snd (group_count Z.eqb (fulfillers (working c))))).
  - rewrite (sum_group_count _ Z.eqb_eq). now rewrite fulfillers_length.
  - apply Permutation_map, order_by_perm.
Qed.

(** ** Lookups raise nothing *)

Lemma limit_1_cases {A} (l : list A) :
  limit_1 l = [] \/ exists x, limit_1 l = [x].
Proof. destruct l; cbn; eauto. Qed.

(** X28: whatever the tables hold, none of [get_user_details], [get_user],
    [get_user_last_request], [get_oldest_request_time],
    [get_latest_fulfilled] and [get_request] raises, and each leaves the
    connection as it was. *)
Theorem lookups_raise_nothing (uid mid : Z) (c : connection) :
  (exists v, get_user_details uid c = (inr v, c))
  /\ (exists v, get_user uid c = (inr v, c))
  /\ (exists v, get_user_last_request uid c = (inr v, c))
  /\ (exists v, get_oldest_request_time c = (inr v, c))
  /\ (exists v, get_latest_fulfilled c = (inr v, c))
  /\ (exists v, get_request uid mid c = (inr v, c)).
Proof.
  repeat split.
  - unfold get_user_details, bind, try_except_finally, execute_query,
      q_user_details.
    destruct (List.filter _ (users (working c))); cbn; eauto.
  - unfold get_user, bind, try_except_finally, execute_query. cbn. eauto.
  - unfold get_user_last_request, bind, try_except_finally, execute_query,
      q_user_last_request.
    destruct (limit_1_cases
                (order_by (fun a b => message_id b <=? message_id a)
                   (List.filter (fun r => user_id r =? uid)
                      (requests (working c)))))
      as [-> | [r ->]]; cbn; eauto.
  - unfold get_oldest_request_time, bind, try_except_finally, execute_query.
    cbn. eauto.
  - unfold get_latest_fulfilled, bind, try_except_finally, execute_query,
      q_latest_fulfilled.
    destruct (limit_1_cases
                (order_by
                   (fun a b => le_nulls_last (fulfill_time b) (fulfill_time a))
                   (List.filter is_fulfilled_col (requests (working c)))))
      as [-> | [r ->]]; cbn; eauto.
  - unfold get_request, bind, try_except_finally, execute_query, q_request.
    destruct (List.filter _ (requests (working c))); cbn; eauto.
Qed.
